(** * dwc_validator: validation of Darwin Core data frames

    A shallow embedding of [dwc_validator/model.py] and
    [dwc_validator/validate.py], and the properties of the report-building
    logic that the specification states about them.

    Layout: the Python runtime (outcomes of a call, values, argument
    binding, the object store), the pandas operations the validators use,
    the interfaces of what lies outside the two files (the vocabulary
    constants, the name-matching service), the report classes, the validator
    functions, and finally the theorems. *)

From Stdlib Require Import ZArith QArith Qcanon String Ascii List DecimalString.
From stdpp Require Import base list strings gmap numbers sorting.

Open Scope string_scope.
Open Scope list_scope.
Open Scope Z_scope.

Set Warnings "-register-all".

(** ** Python runtime *)

Module Py.

(** The exceptions the two files can run into. *)
Inductive exn :=
| KeyError (key : string)
| TypeError (msg : string)
| AttributeError (msg : string)
| NameError (name : string).

(** How a call ends: it returns, an exception leaves it, or [sys.exit()]
    ends the process. *)
Inductive outcome (A : Type) : Type :=
| Ok (a : A)
| Raise (e : exn)
| SysExit.
Arguments Ok {A} a.
Arguments Raise {A} e.
Arguments SysExit {A}.

#[global] Instance outcome_ret : MRet outcome := @Ok.
#[global] Instance outcome_bind : MBind outcome := λ A B f m,
  match m with
  | Ok a => f a
  | Raise e => Raise e
  | SysExit => SysExit
  end.
#[global] Instance outcome_fmap : FMap outcome := λ A B f m,
  match m with
  | Ok a => Ok (f a)
  | Raise e => Raise e
  | SysExit => SysExit
  end.

Definition returns {A} (m : outcome A) : bool :=
  match m with Ok _ => true | _ => false end.

(** [try: body except Exception: handler]. [SystemExit] is not an
    [Exception] and passes through. *)
Definition try_except {A} (body : outcome A) (handler : A) : outcome A :=
  match body with
  | Raise _ => Ok handler
  | other => other
  end.

(** Addresses of the mutable containers that live in the object store. *)
Abbreviation addr := nat (only parsing).

(** Python values, as far as the reports hold them. A list or dict that a
    caller builds and hands over is carried by value ([VList], [VDict]); a
    container that is reached through a reference into the store is a
    [VRef]. *)
Inductive value :=
| VNone
| VBool (b : bool)
| VInt (n : Z)
| VStr (s : string)
| VList (items : list value)
| VDict (entries : list (string * value))
| VRef (a : addr)
| VInstance (class : string) (attrs : list (string * value)).

(** [type(v) is bool] *)
Definition type_is_bool (v : value) : bool :=
  match v with VBool _ => true | _ => false end.

(** [len(v)] of a container. *)
Definition len_of (v : value) : Z :=
  match v with
  | VList items => Z.of_nat (length items)
  | VDict entries => Z.of_nat (length entries)
  | _ => 0
  end.

(** [a == b] on the values compared in the two files; a list and a string
    are never equal. *)
Fixpoint value_eqb (a b : value) : bool :=
  match a, b with
  | VNone, VNone => true
  | VBool x, VBool y => bool_decide (x = y)
  | VInt x, VInt y => bool_decide (x = y)
  | VStr x, VStr y => bool_decide (x = y)
  | VList xs, VList ys =>
      (fix go (xs ys : list value) : bool :=
         match xs, ys with
         | [], [] => true
         | x :: xs, y :: ys => value_eqb x y && go xs ys
         | _, _ => false
         end) xs ys
  | VRef x, VRef y => bool_decide (x = y)
  | _, _ => false
  end.

(** [x in l] *)
Definition value_in (x : value) (l : list value) : bool :=
  existsb (value_eqb x) l.

(** *** Calls: binding arguments to parameters *)

Record parameter := {
  name : string;
  default_value : option value
}.

Fixpoint bind_positional (params : list parameter) (args : list value)
    : outcome (list (string * value) * list parameter) :=
  match args, params with
  | [], _ => Ok ([], params)
  | _ :: _, [] => Raise (TypeError "too many positional arguments")
  | v :: args, p :: params =>
      '(bound, rest) ← bind_positional params args;
      Ok ((name p, v) :: bound, rest)
  end.

Fixpoint check_keywords (bound : list string) (rest : list parameter)
    (kwargs : list (string * value)) : outcome unit :=
  match kwargs with
  | [] => Ok ()
  | (k, _) :: more =>
      if bool_decide (k ∈ bound)
      then Raise (TypeError "got multiple values for argument")
      else if bool_decide (k ∈ name <$> rest)
      then check_keywords bound rest more
      else Raise (TypeError "got an unexpected keyword argument")
  end.

Fixpoint lookup_keyword (k : string) (kwargs : list (string * value))
    : option value :=
  match kwargs with
  | [] => None
  | (k', v) :: more =>
      if bool_decide (k' = k) then Some v else lookup_keyword k more
  end.

Fixpoint bind_keywords (rest : list parameter) (kwargs : list (string * value))
    : outcome (list (string * value)) :=
  match rest with
  | [] => Ok []
  | p :: more =>
      match lookup_keyword (name p) kwargs, default_value p with
      | Some v, _ | None, Some v =>
          bound ← bind_keywords more kwargs; Ok ((name p, v) :: bound)
      | None, None => Raise (TypeError "missing a required argument")
      end
  end.

(** A call [f(args, keywords)] against the parameter list of [f]. *)
Definition bind_arguments (params : list parameter) (args : list value)
    (kwargs : list (string * value)) : outcome (list (string * value)) :=
  '(bound, rest) ← bind_positional params args;
  _ ← check_keywords bound.*1 rest kwargs;
  more ← bind_keywords rest kwargs;
  Ok (bound ++ more).

(** [Class(args, keywords)] for a class whose [__init__] stores every
    parameter in the attribute of the same name, as all classes of model.py
    do. *)
Definition instantiate (class : string) (init : list parameter)
    (args : list value) (kwargs : list (string * value)) : outcome value :=
  attrs ← bind_arguments init args kwargs;
  Ok (VInstance class attrs).

(** [obj.attr] *)
Definition getattr (obj : value) (attr : string) : outcome value :=
  match obj with
  | VInstance _ attrs =>
      match lookup_keyword attr attrs with
      | Some v => Ok v
      | None => Raise (AttributeError attr)
      end
  | _ => Raise (AttributeError attr)
  end.

(** *** The object store *)

Inductive container :=
| ListObject (items : list value)
| DictObject (entries : list (string * value)).

Abbreviation store := (gmap addr container).

Definition allocate (c : container) (σ : store) : addr * store :=
  let a := fresh (dom σ) in (a, <[a := c]> σ).

(** [v.append(x)] *)
Definition list_append (σ : store) (v x : value) : outcome store :=
  match v with
  | VRef a =>
      match σ !! a with
      | Some (ListObject items) => Ok (<[a := ListObject (items ++ [x])]> σ)
      | _ => Raise (AttributeError "append")
      end
  | _ => Raise (AttributeError "append")
  end.

(** [v[k] = x]: an existing key keeps its place, a new one goes last. *)
Fixpoint assoc_set (k : string) (x : value) (entries : list (string * value))
    : list (string * value) :=
  match entries with
  | [] => [(k, x)]
  | (k', y) :: more =>
      if bool_decide (k' = k) then (k, x) :: more
      else (k', y) :: assoc_set k x more
  end.

Definition dict_setitem (σ : store) (v : value) (k : string) (x : value)
    : outcome store :=
  match v with
  | VRef a =>
      match σ !! a with
      | Some (DictObject entries) =>
          Ok (<[a := DictObject (assoc_set k x entries)]> σ)
      | _ => Raise (TypeError "does not support item assignment")
      end
  | _ => Raise (TypeError "does not support item assignment")
  end.

(** What a reference shows when it is read. *)
Definition deref (σ : store) (v : value) : option container :=
  match v with
  | VRef a => σ !! a
  | _ => None
  end.

(** *** Strings *)

(** The case mappings on the ASCII letters: what [str.lower()] and
    [str.upper()] do to a string of ASCII characters. The case mappings of
    the interpreter itself, which follow Unicode, are left to the runtime
    (see [Runtime]); these serve the sample runtime. *)
Definition ascii_lower (c : ascii) : ascii :=
  let n := N_of_ascii c in
  if ((65 <=? n) && (n <=? 90))%N then ascii_of_N (n + 32) else c.
Definition ascii_upper (c : ascii) : ascii :=
  let n := N_of_ascii c in
  if ((97 <=? n) && (n <=? 122))%N then ascii_of_N (n - 32) else c.

Fixpoint map_string (f : ascii → ascii) (s : string) : string :=
  match s with
  | EmptyString => EmptyString
  | String c r => String (f c) (map_string f r)
  end.
Definition lower_ascii : string → string := map_string ascii_lower.
Definition upper_ascii : string → string := map_string ascii_upper.

(** ["%20".join(item.split(" "))]: every blank becomes [%20]. *)
Fixpoint join_split_blank (s : string) : string :=
  match s with
  | EmptyString => EmptyString
  | String c r =>
      if Ascii.eqb c " " then "%20" +:+ join_split_blank r
      else String c (join_split_blank r)
  end.

(** [l.remove(x)]: drops the first occurrence. *)
Fixpoint list_remove_first (x : string) (l : list string) : list string :=
  match l with
  | [] => []
  | y :: r => if bool_decide (x = y) then r else y :: list_remove_first x r
  end.

(** [set(a).issuperset(b)] *)
Definition issuperset (a b : list string) : bool :=
  forallb (λ x, bool_decide (x ∈ a)) b.

End Py.
Export Py.

(** ** pandas and numpy *)

(** A cell of a data frame: missing ([NaN]), a string, or a number. Numbers
    are idealised as rationals. *)
Inductive cell :=
| NaN
| Str (s : string)
| Num (q : Qc).

#[global] Instance cell_eq_dec : EqDecision cell.
Proof. solve_decision. Defined.

Abbreviation Series := (list cell).

(** A data frame: the length of its index and its named columns. *)
Record DataFrame := {
  index_length : nat;
  frame : list (string * Series)
}.

(** What the runtime decides and the two files only use: how
    [pd.to_numeric] reads a string, how numpy prints a number, in which
    order a Python [set] is listed, and

    - [lower] and [upper]: [str.lower()] and [str.upper()], which follow
      Unicode (a string is its encoding; ["ß".upper()] is ["SS"]);
    - [accessor_lower]: what [Series.str.lower()] makes of one string, which
      is [str.lower()] for a column of Python objects and the
      implementation of Arrow for an Arrow-backed string column;
    - [series_of_one_converts]: whether [int(...)] accepts a series of one
      element. pandas before version 3 returns the element; pandas 3 raises
      [TypeError]. *)
Class Runtime := {
  parse_float : string → option Qc;
  str_of_float : Qc → string;
  list_of_set : list string → list string;
  list_of_set_perm : ∀ l, list_of_set l ≡ₚ remove_dups l;
  list_of_cell_set : Series → list cell;
  lower : string → string;
  upper : string → string;
  accessor_lower : string → string;
  series_of_one_converts : bool
}.

Module pd.

Definition columns (df : DataFrame) : list string := (frame df).*1.

(** [field in dataframe.columns] *)
Definition has_column (df : DataFrame) (field : string) : bool :=
  bool_decide (field ∈ columns df).

Fixpoint lookup_column (field : string) (cols : list (string * Series))
    : option Series :=
  match cols with
  | [] => None
  | (name, s) :: rest =>
      if bool_decide (name = field) then Some s else lookup_column field rest
  end.

(** [dataframe[field]] *)
Definition getitem (df : DataFrame) (field : string) : outcome Series :=
  match lookup_column field (frame df) with
  | Some s => Ok s
  | None => Raise (KeyError field)
  end.

(** [dataframe[field]] where the code has checked that the column exists. *)
Definition column (df : DataFrame) (field : string) : Series :=
  default [] (lookup_column field (frame df)).

(** [len(dataframe)], [dataframe.shape[0]] *)
Definition len (df : DataFrame) : Z := Z.of_nat (index_length df).

Definition isna (c : cell) : bool :=
  match c with NaN => true | _ => false end.
Definition notnull (c : cell) : bool := negb (isna c).

(** [.sum()] and [.all()] of a boolean series. *)
Definition sum (l : list bool) : Z := Z.of_nat (length (List.filter id l)).
Definition all (l : list bool) : bool := forallb id l.

(** [series.count()]: the populated cells. *)
Definition count (s : Series) : Z := sum (notnull <$> s).
Definition dropna (s : Series) : Series := List.filter notnull s.

(** [series.nunique()]: the distinct populated values. *)
Definition nunique (s : Series) : Z :=
  Z.of_nat (length (remove_dups (dropna s))).

(** [series.duplicated()]: a row is marked when an earlier row holds the
    same value. *)
Fixpoint duplicated_from (seen : list cell) (s : Series) : list bool :=
  match s with
  | [] => []
  | c :: rest => bool_decide (c ∈ seen) :: duplicated_from (c :: seen) rest
  end.
Definition duplicated (s : Series) : list bool := duplicated_from [] s.

(** The [.str] accessor accepts a series whose populated values are
    strings, or strings mixed with other values, or that has no populated
    value; on a series of numbers it raises
    [AttributeError: Can only use .str accessor with string values]. *)
Definition is_str (c : cell) : bool :=
  match c with Str _ => true | _ => false end.
Definition str_accessor_ok (s : Series) : bool :=
  existsb is_str s || forallb isna s.

(** [series.isin(strings)] *)
Definition isin (vocabulary : list string) (s : Series) : list bool :=
  (λ c, match c with Str v => bool_decide (v ∈ vocabulary) | _ => false end) <$> s.

(** [pd.isna(x)] and the number tests of [pd.api.types] on an element of a
    numeric series: [None] is the NaN of such a series, every other element
    is an int or a float. *)
Definition isna_number (x : option Qc) : bool :=
  match x with None => true | Some _ => false end.
Definition is_number (x : option Qc) : bool :=
  match x with None => false | Some _ => true end.

(** [numeric.between(lo, hi, inclusive='both')] *)
Definition between (lo hi : Z) (x : option Qc) : bool :=
  match x with
  | None => false
  | Some q => bool_decide (Qc_of_Z lo ≤ q)%Qc && bool_decide (q ≤ Qc_of_Z hi)%Qc
  end.

(** What [validate_required_fields] returns: the int 0, or a series of
    counts. *)
Inductive counts :=
| IntZero
| PerColumn (entries : list (string * Z)).

(** [counts.items()] *)
Definition items (c : counts) : outcome (list (string * Z)) :=
  match c with
  | IntZero => Raise (AttributeError "items")
  | PerColumn entries => Ok entries
  end.

(** [numpy.unique]: the distinct strings in ascending order. *)
Fixpoint insert_sorted (s : string) (l : list string) : list string :=
  match l with
  | [] => [s]
  | t :: r => if String.leb s t then s :: l else t :: insert_sorted s r
  end.
Definition unique (l : list string) : list string :=
  foldr insert_sorted [] (remove_dups l).

Section with_runtime.
Context {runtime : Runtime}.

(** [pd.to_numeric(series, errors='coerce')]: [None] stands for the NaN
    that replaces what is missing or cannot be read. *)
Definition to_numeric_cell (c : cell) : option Qc :=
  match c with
  | NaN => None
  | Num q => Some q
  | Str s => parse_float s
  end.
Definition to_numeric (s : Series) : list (option Qc) := to_numeric_cell <$> s.

(** [array.astype(numpy.str_)] on one cell. *)
Definition astype_str (c : cell) : string :=
  match c with
  | NaN => "nan"
  | Str s => s
  | Num q => str_of_float q
  end.

(** [series.str.lower()]: what is not a string becomes NaN. *)
Definition lower_cell (c : cell) : cell :=
  match c with Str s => Str (accessor_lower s) | _ => NaN end.
Definition str_lower (s : Series) : outcome Series :=
  if str_accessor_ok s then Ok (lower_cell <$> s)
  else Raise (AttributeError "Can only use .str accessor with string values!").

(** [int(x)] where [x] is what [validate_required_fields] returns. The int
    0 is itself; a series of two or more counts never converts; a series of
    one count converts or not with the version of pandas. *)
Definition int_of_counts (c : counts) : outcome Z :=
  match c with
  | IntZero => Ok 0
  | PerColumn [(_, n)] =>
      if series_of_one_converts then Ok n
      else Raise (TypeError "cannot convert the series to int")
  | PerColumn _ => Raise (TypeError "cannot convert the series to int")
  end.

End with_runtime.

End pd.

(** ** What lies outside the two files *)

(** The constants of [dwc_validator/vocab.py]; [taxon_terms_Australia] is
    [taxon_terms["Australia"]]. *)
Class Vocab := {
  basis_of_record_vocabulary : list string;
  geodetic_datum_vocabulary : list string;
  taxon_terms_Australia : list string;
  required_columns_spatial_vocab : list string;
  required_columns_other : list string;
  required_taxonomy_columns : list string
}.

(** The name-matching service, by the three requests the code sends and the
    parts of the JSON answers it reads. *)
Record classification_match := {
  match_scientificName : option string
}.

Record synonym_match := {
  synonym_name : string;
  synonym_rank : option string;
  synonym_cl : gmap string string
}.

Record suggestion := {
  suggestion_name : string;
  suggestion_rank : option string;
  suggestion_cl : gmap string string;
  suggestion_synonymMatch : option (list synonym_match)
}.

(** The answer of the search request: [success], and the other keys of the
    JSON object, among them [scientificName] and [rank]. *)
Record search_result := {
  success : bool;
  search_keys : gmap string string
}.

Class NameMatching := {
  searchAllByClassification : list cell → list classification_match;
  autocomplete : string → Z → bool → list suggestion;
  search : string → search_result
}.

(** Modelled from the spec: [dwc_validator/breakdown.py] is not among the
    sources; ColumnStats "computes per-column population counts for a
    dataset". *)
Definition field_populated_counts (dataframe : DataFrame) : value :=
  VDict ((λ c, (c.1, VInt (pd.count c.2))) <$> frame dataframe).

(** ** model.py *)

Record CoordinatesReport := {
  has_coordinates_fields : bool;
  invalid_decimal_latitude_count : Z;
  invalid_decimal_longitude_count : Z
}.

Record VocabularyReport := {
  field : string;
  has_field : bool;
  recognised_count : Z;
  unrecognised_count : Z;
  non_matching_values : list string
}.

(** The two leaf reports as values, for the places that store them. *)
Definition CoordinatesReport_value (r : CoordinatesReport) : value :=
  VInstance "CoordinatesReport"
    [("has_coordinates_fields", VBool (has_coordinates_fields r));
     ("invalid_decimal_latitude_count", VInt (invalid_decimal_latitude_count r));
     ("invalid_decimal_longitude_count", VInt (invalid_decimal_longitude_count r))].

Definition VocabularyReport_value (r : VocabularyReport) : value :=
  VInstance "VocabularyReport"
    [("field", VStr (field r));
     ("has_field", VBool (has_field r));
     ("recognised_count", VInt (recognised_count r));
     ("unrecognised_count", VInt (unrecognised_count r));
     ("non_matching_values", VList (VStr <$> non_matching_values r))].

Definition required (n : string) : parameter :=
  {| name := n; default_value := None |}.
Definition optional (n : string) (v : value) : parameter :=
  {| name := n; default_value := Some v |}.

(** What executing model.py leaves behind: the store with the default
    containers, which the [def] statements create once, and the parameter
    lists of the two [__init__] methods that refer to them. *)
Record model_module := {
  model_store : store;
  TaxonReport_init : list parameter;
  DFValidationReport_init : list parameter
}.

Definition import_model (σ : store) : model_module :=
  let '(unrecognised_taxa, σ) := allocate (ListObject []) σ in
  let '(suggested_names, σ) := allocate (DictObject []) σ in
  let '(missing_columns, σ) := allocate (ListObject []) σ in
  {| model_store := σ;
     TaxonReport_init :=
       [optional "has_invalid_taxa" (VBool false);
        optional "unrecognised_taxa" (VRef unrecognised_taxa);
        optional "suggested_names" (VRef suggested_names)];
     DFValidationReport_init :=
       [required "record_type";
        required "record_count";
        required "errors";
        required "warnings";
        required "column_counts";
        required "record_error_count";
        required "coordinates_report";
        required "records_with_taxonomy_count";
        required "taxonomy_report";
        required "records_with_temporal_count";
        required "records_with_recorded_by_count";
        optional "vocab_reports" VNone;
        optional "all_required_columns_present" (VBool false);
        optional "missing_columns" (VRef missing_columns)] |}.

(** The module as a fresh interpreter loads it. *)
Definition model : model_module := import_model ∅.

Definition TaxonReport (args : list value) (kwargs : list (string * value))
    : outcome value :=
  instantiate "TaxonReport" (TaxonReport_init model) args kwargs.

Definition DFValidationReport (args : list value)
    (kwargs : list (string * value)) : outcome value :=
  instantiate "DFValidationReport" (DFValidationReport_init model) args kwargs.

(** ** validate.py *)

(** The local state of the loop of [create_taxonomy_report]: the flag, the
    dictionary of suggestions and the loop variable [term], which the
    [for ... else] of the synonym branch reads after its loop. *)
Record taxonomy_state := {
  has_invalid_taxa : bool;
  invalid_taxon_dict : gmap string (list (option string));
  term : option string
}.

Definition set_invalid (st : taxonomy_state) : taxonomy_state :=
  {| has_invalid_taxa := true;
     invalid_taxon_dict := invalid_taxon_dict st;
     term := term st |}.

Definition bind_term (t : string) (st : taxonomy_state) : taxonomy_state :=
  {| has_invalid_taxa := has_invalid_taxa st;
     invalid_taxon_dict := invalid_taxon_dict st;
     term := Some t |}.

(** [invalid_taxon_dict[k].append(v)] *)
Definition dict_append (k : string) (v : option string) (st : taxonomy_state)
    : outcome taxonomy_state :=
  match invalid_taxon_dict st !! k with
  | Some l =>
      Ok {| has_invalid_taxa := has_invalid_taxa st;
            invalid_taxon_dict := <[k := l ++ [v]]> (invalid_taxon_dict st);
            term := term st |}
  | None => Raise (KeyError k)
  end.

Definition numeric_fields : list string :=
  ["decimalLatitude"; "decimalLongitude"; "coordinateUncertaintyInMeters";
   "coordinatePrecision"; "elevation"; "depth"; "minimumDepthInMeters";
   "maximumDepthInMeters"; "minimumDistanceAboveSurfaceInMeters";
   "maximumDistanceAboveSurfaceInMeters"; "individualCount";
   "organismQuantity"; "organismSize"; "sampleSizeValue";
   "temperatureInCelsius"; "organismAge"; "year"; "month"; "day";
   "startDayOfYear"; "endDayOfYear"].

(** [dataframe.loc[~mask][field]]: the cells of the rows the mask leaves
    out. *)
Fixpoint loc_not (mask : list bool) (s : Series) : Series :=
  match mask, s with
  | m :: mask, c :: s => if m then loc_not mask s else c :: loc_not mask s
  | _, _ => []
  end.

Section validate.
Context {runtime : Runtime} {vocab : Vocab} {service : NameMatching}.

(** *** [validate_required_fields] *)

Definition validate_required_fields (dataframe : DataFrame)
    (required_fields : list string) : pd.counts :=
  if negb (existsb (pd.has_column dataframe) required_fields) then pd.IntZero
  else
    let present_fields := List.filter (pd.has_column dataframe) required_fields in
    pd.PerColumn ((λ f, (f, pd.count (pd.column dataframe f))) <$> present_fields).

(** *** [generate_coordinates_report] *)

Definition generate_coordinates_report (dataframe : DataFrame)
    (warnings : list string) : CoordinatesReport * list string :=
  if negb (pd.has_column dataframe "decimalLatitude")
     || negb (pd.has_column dataframe "decimalLongitude")
  then (Build_CoordinatesReport false 0 0, warnings)
  else
    let lat_column_non_empty_count :=
      pd.count (pd.column dataframe "decimalLatitude") in
    let lon_column_non_empty_count :=
      pd.count (pd.column dataframe "decimalLongitude") in
    let lat_column := pd.to_numeric (pd.column dataframe "decimalLatitude") in
    let lon_column := pd.to_numeric (pd.column dataframe "decimalLongitude") in
    let lat_valid_count := pd.sum (pd.between (-90) 90 <$> lat_column) in
    let lon_valid_count := pd.sum (pd.between (-180) 180 <$> lon_column) in
    if bool_decide (lat_valid_count = lat_column_non_empty_count)
       && bool_decide (lon_valid_count = lon_column_non_empty_count)
    then (Build_CoordinatesReport true 0 0, warnings)
    else (Build_CoordinatesReport true
            (lat_column_non_empty_count - lat_valid_count)
            (lon_column_non_empty_count - lon_valid_count),
          warnings ++ ["INVALID_OR_OUT_OF_RANGE_COORDINATES"]).

(** *** [check_id_fields] *)

(** The loop over the candidates; [id_fields_len] is [len(id_fields)]. The
    result is the returned count and the [errors] list as the call leaves
    it. *)
Fixpoint check_id_candidates (id_fields_len : nat) (id_term : string)
    (dataframe : DataFrame) (candidates : list string) (errors : list string)
    : outcome (Z * list string) :=
  match candidates with
  | [] => Ok (0, errors)
  | field :: rest =>
      found ← (if bool_decide (id_term = field)
               then Some <$> pd.getitem dataframe "id"
               else if pd.has_column dataframe field
               then Some <$> pd.getitem dataframe field
               else Ok None);
      match found with
      | None => Ok (pd.len dataframe, errors ++ ["MISSING_ID_FIELD"])
      | Some id_field_series =>
          if pd.all (pd.notnull <$> id_field_series) then
            if bool_decide (id_fields_len = 1%nat) then
              if bool_decide (pd.nunique id_field_series = pd.len dataframe)
              then check_id_candidates id_fields_len id_term dataframe rest errors
              else Ok (pd.sum (pd.duplicated id_field_series),
                       errors ++ ["DUPLICATE_ID_FIELD_VALUES"])
            else check_id_candidates id_fields_len id_term dataframe rest errors
          else Ok (pd.sum (pd.isna <$> id_field_series),
                   errors ++ ["MISSING_ID_FIELD_VALUES"])
      end
  end.

Definition check_id_fields (id_fields : option (list string))
    (id_term : string) (dataframe : DataFrame) (errors : list string)
    : outcome (Z * list string) :=
  match id_fields with
  | None | Some [] => Ok (0, errors)
  | Some fields =>
      check_id_candidates (length fields) id_term dataframe fields errors
  end.

(** *** [create_vocabulary_report] *)

(** The [try] block that samples the values outside the vocabulary. *)
Definition non_matching_sample (dataframe : DataFrame) (field : string)
    (controlled_vocabulary_lower : list string) : outcome (list string) :=
  lowered ← pd.str_lower (pd.column dataframe field);
  let x :=
    loc_not (pd.isin controlled_vocabulary_lower lowered)
            (pd.column dataframe field) in
  let non_matching := take 10 (pd.unique (pd.astype_str <$> x)) in
  Ok (if bool_decide ("nan" ∈ non_matching)
      then list_remove_first "nan" non_matching
      else non_matching).

Definition create_vocabulary_report (dataframe : DataFrame) (field : string)
    (controlled_vocabulary : list string) : outcome VocabularyReport :=
  if negb (pd.has_column dataframe field)
  then Ok (Build_VocabularyReport field false 0 0 [])
  else
    let not_populated_count := pd.sum (pd.isna <$> pd.column dataframe field) in
    let populated_values := pd.dropna (pd.column dataframe field) in
    '(matching_records_count, non_matching) ←
      (if bool_decide (0 < length populated_values)%nat then
         field_values_lower ← pd.str_lower populated_values;
         let controlled_vocabulary_lower := lower <$> controlled_vocabulary in
         let matching_records_count :=
           pd.sum (pd.isin controlled_vocabulary_lower field_values_lower) in
         non_matching ←
           try_except
             (non_matching_sample dataframe field controlled_vocabulary_lower)
             [];
         Ok (matching_records_count, non_matching)
       else Ok (0, []));
    Ok (Build_VocabularyReport field true matching_records_count
          (pd.len dataframe - (not_populated_count + matching_records_count))
          non_matching).

(** *** [validate_numeric_fields] *)

(** The lambda applied to every element of [numeric_test]. *)
Definition is_numeric_or_empty (x : option Qc) : bool :=
  pd.isna_number x || pd.is_number x.

Definition validate_numeric_field (dataframe : DataFrame)
    (warnings : list string) (field : string) : list string :=
  if pd.has_column dataframe field then
    let numeric_test := pd.to_numeric (pd.column dataframe field) in
    let is_valid := pd.all (is_numeric_or_empty <$> numeric_test) in
    if negb is_valid
    then warnings ++ ["NON_NUMERIC_VALUES_IN_" +:+ upper field]
    else warnings
  else warnings.

Definition validate_numeric_fields (dataframe : DataFrame)
    (warnings : list string) : list string :=
  fold_left (validate_numeric_field dataframe) numeric_fields warnings.

(** *** [create_taxonomy_report] *)

(** The three appends that open every recorded suggestion. *)
Definition append_match (item proposed : string) (rank : option string)
    (st : taxonomy_state) : outcome taxonomy_state :=
  st ← dict_append "original name" (Some item) st;
  st ← dict_append "proposed match(es)" (Some proposed) st;
  dict_append "rank of proposed match(es)" rank st.

(** [for term in taxon_terms["Australia"]: if term in cl: ... else: ...]
    of the autocomplete and the search branch. *)
Fixpoint append_classification (cl : gmap string string) (terms : list string)
    (st : taxonomy_state) : outcome taxonomy_state :=
  match terms with
  | [] => Ok st
  | t :: rest =>
      st ← dict_append t (cl !! t) (bind_term t st);
      append_classification cl rest st
  end.

(** The same loop in the synonym branch, where the [else] belongs to the
    [for]: it runs once, after the loop, with the last value of [term]. *)
Fixpoint append_synonym_classification (cl : gmap string string)
    (terms : list string) (st : taxonomy_state) : outcome taxonomy_state :=
  match terms with
  | [] =>
      match term st with
      | Some t => dict_append t None st
      | None => Raise (NameError "term")
      end
  | t :: rest =>
      st ← match cl !! t with
           | Some v => dict_append t (Some v) (bind_term t st)
           | None => Ok (bind_term t st)
           end;
      append_synonym_classification cl rest st
  end.

(** [for synonym in response_json_single[0]["synonymMatch"]] *)
Fixpoint check_synonyms (item : string) (synonyms : list synonym_match)
    (st : taxonomy_state) : outcome taxonomy_state :=
  match synonyms with
  | [] => Ok st
  | synonym :: rest =>
      st ← match synonym_rank synonym with
           | Some rank =>
               st ← append_match item (synonym_name synonym) (Some rank) st;
               append_synonym_classification (synonym_cl synonym)
                 taxon_terms_Australia st
           | None => Ok st
           end;
      check_synonyms item rest st
  end.

(** [d[k]] on the keys of the search answer. *)
Definition search_key (r : search_result) (k : string) : outcome string :=
  match search_keys r !! k with
  | Some v => Ok v
  | None => Raise (KeyError k)
  end.

(** The body of the loop over the names. *)
Definition check_name (num_matches : Z) (include_synonyms : bool)
    (response_json : list classification_match) (item : cell)
    (st : taxonomy_state) : outcome taxonomy_state :=
  let item_index :=
    list_find (λ d, Str <$> match_scientificName d = Some item) response_json in
  match item_index with
  | Some _ => Ok st
  | None =>
      let st := set_invalid st in
      match item with
      | Str item =>
          let response_json_single :=
            autocomplete (join_split_blank item) num_matches include_synonyms in
          match response_json_single with
          | first :: _ =>
              match suggestion_rank first with
              | Some rank =>
                  st ← append_match item (suggestion_name first) (Some rank) st;
                  append_classification (suggestion_cl first)
                    taxon_terms_Australia st
              | None =>
                  match suggestion_synonymMatch first with
                  | Some synonyms => check_synonyms item synonyms st
                  | None => Raise (KeyError "synonymMatch")
                  end
              end
          | [] =>
              let response_search_json := search (join_split_blank item) in
              if success response_search_json then
                proposed ← search_key response_search_json "scientificName";
                rank ← search_key response_search_json "rank";
                st ← append_match item proposed (Some rank) st;
                append_classification (search_keys response_search_json)
                  taxon_terms_Australia st
              else SysExit
          end
      | _ => Raise (AttributeError "split")
      end
  end.

Fixpoint check_names (num_matches : Z) (include_synonyms : bool)
    (response_json : list classification_match) (names : list cell)
    (st : taxonomy_state) : outcome taxonomy_state :=
  match names with
  | [] => Ok st
  | item :: rest =>
      st ← check_name num_matches include_synonyms response_json item st;
      check_names num_matches include_synonyms response_json rest st
  end.

(** [for entry in valid_data.items()] *)
Fixpoint lowest_count (rows : Z) (entries : list (string * Z))
    (valid_taxon_count : Z) : Z :=
  match entries with
  | [] => valid_taxon_count
  | entry :: rest =>
      lowest_count rows rest
        (if negb (bool_decide (entry.1 = "vernacularName"))
            && (entry.2 <? rows) && (entry.2 <? valid_taxon_count)
         then entry.2 else valid_taxon_count)
  end.

(** Lines 558 to 570: the count that is handed to [TaxonReport]. *)
Definition count_valid_taxa (dataframe : DataFrame) (has_invalid_taxa : bool)
    : outcome Z :=
  let valid_taxon_count := 999 in
  if negb has_invalid_taxa then
    entries ←
      pd.items (validate_required_fields dataframe required_taxonomy_columns);
    let valid_taxon_count :=
      lowest_count (pd.len dataframe) entries valid_taxon_count in
    Ok (if pd.len dataframe <? valid_taxon_count
        then pd.len dataframe else valid_taxon_count)
  else Ok 0.

(** Lines 494 to 502: what the loop starts from. *)
Definition terms : list string :=
  ["original name"; "proposed match(es)"; "rank of proposed match(es)"]
  ++ taxon_terms_Australia.

Definition initial_taxonomy_state : taxonomy_state :=
  {| has_invalid_taxa := false;
     invalid_taxon_dict := list_to_map ((λ x, (x, [])) <$> terms);
     term := None |}.

Definition suggestions_value (d : gmap string (list (option string))) : value :=
  VDict ((λ e, (e.1, VList (from_option VStr VNone <$> e.2))) <$> map_to_list d).

(** The result is [None] ([VNone]) or the [TaxonReport]. *)
Definition create_taxonomy_report (dataframe : DataFrame) (num_matches : Z)
    (include_synonyms : bool) : outcome value :=
  if negb (bool_decide ("scientificName" ∈ pd.columns dataframe)) then Ok VNone
  else
    let scientific_names_list :=
      list_of_cell_set (pd.column dataframe "scientificName") in
    let response_json := searchAllByClassification scientific_names_list in
    st ← check_names num_matches include_synonyms response_json
           scientific_names_list initial_taxonomy_state;
    valid_taxon_count ← count_valid_taxa dataframe (has_invalid_taxa st);
    TaxonReport []
      [("has_invalid_taxa", VBool (has_invalid_taxa st));
       ("unrecognised_taxa", suggestions_value (invalid_taxon_dict st));
       ("valid_taxon_count", VInt valid_taxon_count)].

(** *** [create_datetime_report] *)

(** Without an [eventDate] column it returns a set; with one it prints the
    first date and ends the process. *)
Definition create_datetime_report (dataframe : DataFrame)
    : outcome (list value) :=
  if negb (pd.has_column dataframe "eventDate")
  then Ok [VBool true; VInt (pd.len dataframe)]
  else
    event_dates ← pd.getitem dataframe "eventDate";
    _ ← match event_dates with
        | [] => Raise (KeyError "0")
        | first :: _ => Ok first
        end;
    SysExit.

(** *** [validate_occurrence_dataframe] *)

(** Lines 46 to 65: the taxonomy columns. The result is [missing_columns]
    and [taxonomy_report]. *)
Definition check_taxonomy_columns (dataframe : DataFrame)
    (missing_columns : list string) : outcome (list string * value) :=
  if existsb (λ v, bool_decide (v ∈ required_taxonomy_columns))
       (pd.columns dataframe)
  then
    let check_missing_fields :=
      issuperset (pd.columns dataframe) required_taxonomy_columns in
    if negb check_missing_fields then
      Ok (list_of_set
            (list_difference required_taxonomy_columns (pd.columns dataframe)),
          VNone)
    else if bool_decide ("scientificName" ∈ pd.columns dataframe) then
      taxonomy_report ← create_taxonomy_report dataframe 5 true;
      Ok (missing_columns, taxonomy_report)
    else Ok (missing_columns, VNone)
  else Ok (missing_columns, VNone).

(** Lines 67 to 88: the spatial columns, or else the other required ones. *)
Definition check_spatial_columns (dataframe : DataFrame)
    (missing_columns : list string) : list string :=
  if existsb (λ v, bool_decide (v ∈ required_columns_spatial_vocab))
       (pd.columns dataframe)
  then
    let check_missing_fields :=
      issuperset (pd.columns dataframe) required_columns_spatial_vocab in
    if negb check_missing_fields then
      list_of_set
        (list_difference required_columns_spatial_vocab (pd.columns dataframe))
    else
      let valid_data :=
        validate_required_fields dataframe required_columns_spatial_vocab in
      missing_columns
  else
    let check_missing_fields :=
      VBool (issuperset (pd.columns dataframe) required_columns_other) in
    if negb (type_is_bool check_missing_fields)
       && (0 <? len_of check_missing_fields)
    then
      list_of_set (list_difference required_columns_other (pd.columns dataframe))
      ++ ["MAYBE: decimalLatitude"; "MAYBE: decimalLongitude"]
    else
      let valid_data :=
        validate_required_fields dataframe required_columns_other in
      missing_columns.

(** Lines 90 to 101: one of the three identifiers has to be there. *)
Definition check_any_identifier (dataframe : DataFrame)
    (missing_columns : list string) : list string :=
  let any_present :=
    existsb (λ entry, issuperset (pd.columns dataframe) [entry])
      ["occurrenceID"; "catalogNumber"; "recordNumber"] in
  if negb any_present
  then missing_columns ++ ["occurrenceID OR catalogNumber OR recordNumber"]
  else missing_columns.

(** Lines 103 to 106. *)
Definition all_columns_present (missing_columns : list string) : bool :=
  bool_decide (length missing_columns = 0%nat).

Definition validate_occurrence_dataframe (dataframe : DataFrame)
    (id_fields : option (list string)) (id_term : string) : outcome value :=
  let errors := [] in
  let warnings := [] in
  '(record_error_count, errors) ←
    check_id_fields id_fields id_term dataframe errors;
  let warnings := validate_numeric_fields dataframe warnings in
  let missing_columns := [] in
  '(missing_columns, taxonomy_report) ←
    check_taxonomy_columns dataframe missing_columns;
  let missing_columns := check_spatial_columns dataframe missing_columns in
  let missing_columns := check_any_identifier dataframe missing_columns in
  let all_required_columns_present := all_columns_present missing_columns in
  let '(coordinates_report, warnings) :=
    generate_coordinates_report dataframe warnings in
  datetime_report ← create_datetime_report dataframe;
  basis_of_record ←
    create_vocabulary_report dataframe "basisOfRecord"
      basis_of_record_vocabulary;
  vocabs_reports ←
    (if value_in (VList [VStr "geodeticDatum"]) (VStr <$> pd.columns dataframe)
     then
       geodetic_datum ←
         create_vocabulary_report dataframe "geodeticDatum"
           geodetic_datum_vocabulary;
       Ok [basis_of_record; geodetic_datum]
     else Ok [basis_of_record]);
  DFValidationReport []
    [("record_type", VStr "Occurrence");
     ("record_count", VInt (pd.len dataframe));
     ("record_error_count", VInt record_error_count);
     ("errors", VList (VStr <$> errors));
     ("warnings", VList (VStr <$> warnings));
     ("all_required_columns_present", VBool all_required_columns_present);
     ("missing_columns", VList (VStr <$> missing_columns));
     ("column_counts", field_populated_counts dataframe);
     ("records_with_temporal_count", VInt 0);
     ("coordinates_report", CoordinatesReport_value coordinates_report);
     ("taxonomy_report", taxonomy_report);
     ("vocab_reports", VList (VocabularyReport_value <$> vocabs_reports))].

(** *** [validate_event_dataframe] *)

Definition validate_event_dataframe (dataframe : DataFrame) : outcome value :=
  let errors := [] in
  let warnings := [] in
  '(record_error_count, errors) ←
    check_id_fields (Some ["eventID"]) "" dataframe errors;
  let warnings := validate_numeric_fields dataframe warnings in
  let valid_temporal_count :=
    validate_required_fields dataframe ["eventDate"; "year"; "month"; "day"] in
  let '(coordinates_report, warnings) :=
    generate_coordinates_report dataframe warnings in
  let valid_recorded_by_count :=
    validate_required_fields dataframe ["recordedBy"; "recordedByID"] in
  geodetic_datum ←
    create_vocabulary_report dataframe "geodeticDatum"
      geodetic_datum_vocabulary;
  let vocabs_reports := [geodetic_datum] in
  records_with_temporal_count ← pd.int_of_counts valid_temporal_count;
  records_with_recorded_by_count ← pd.int_of_counts valid_recorded_by_count;
  DFValidationReport []
    [("record_type", VStr "Event");
     ("record_count", VInt (pd.len dataframe));
     ("record_error_count", VInt record_error_count);
     ("errors", VList (VStr <$> errors));
     ("warnings", VList (VStr <$> warnings));
     ("coordinates_report", CoordinatesReport_value coordinates_report);
     ("records_with_taxonomy_count", VInt 0);
     ("records_with_temporal_count", VInt records_with_temporal_count);
     ("records_with_recorded_by_count", VInt records_with_recorded_by_count);
     ("column_counts", field_populated_counts dataframe);
     ("vocab_reports", VList (VocabularyReport_value <$> vocabs_reports))].

End validate.

(** ** The words of the specification

    Counts as the specification phrases them, to be compared with what the
    pandas expressions of the code compute. *)

Section specification.
Context {runtime : Runtime} {vocab : Vocab} {service : NameMatching}.

(** "count non-null values per column" *)
Definition non_null_count (s : Series) : Z :=
  Z.of_nat (length (filter (λ c, c ≠ NaN) s)).

(** "coerce to numeric [...]; count how many coerced values fall within"
    the bounds, "inclusive both ends" *)
Definition coerces_within (lo hi : Z) (c : cell) : Prop :=
  match pd.to_numeric_cell c with
  | Some q => (Qc_of_Z lo ≤ q)%Qc ∧ (q ≤ Qc_of_Z hi)%Qc
  | None => False
  end.

#[global] Instance coerces_within_dec lo hi c : Decision (coerces_within lo hi c).
Proof. unfold coerces_within. destruct (pd.to_numeric_cell c); apply _. Defined.

Definition in_range_count (lo hi : Z) (s : Series) : Z :=
  Z.of_nat (length (filter (coerces_within lo hi) s)).

(** "a cell is valid if it is absent/null or coerces to a number" *)
Definition numeric_or_null (c : cell) : Prop :=
  c = NaN ∨ is_Some (pd.to_numeric_cell c).

(** A value is recognised when it is a string and its lower-case form, as
    the [.str] accessor gives it, is the lower-case form of a word of the
    vocabulary. *)
Definition recognised (vocabulary : list string) (c : cell) : Prop :=
  match c with
  | Str s => accessor_lower s ∈ lower <$> vocabulary
  | _ => False
  end.

#[global] Instance recognised_dec vocabulary c : Decision (recognised vocabulary c).
Proof. destruct c; simpl; apply _. Defined.

Definition recognised_rows (vocabulary : list string) (s : Series) : Z :=
  Z.of_nat (length (filter (recognised vocabulary) s)).

Definition unpopulated_rows (s : Series) : Z :=
  Z.of_nat (length (filter (λ c, c = NaN) s)).

(** "resolve the column (aliasing to a canonical [id] column when the
    candidate equals the configured term)" *)
Definition resolved_column (id_term candidate : string) : string :=
  if bool_decide (id_term = candidate) then "id" else candidate.

(** A candidate passes when its column is there, every value of it is
    populated and, if it is the only candidate, no value is repeated. *)
Definition passes (id_fields_len : nat) (id_term : string) (df : DataFrame)
    (candidate : string) : Prop :=
  let col := resolved_column id_term candidate in
  col ∈ pd.columns df
  ∧ Forall (λ c, c ≠ NaN) (pd.column df col)
  ∧ (id_fields_len = 1%nat → pd.nunique (pd.column df col) = pd.len df).

(** The rows that repeat the value of an earlier row. *)
Definition duplicate_rows (s : Series) : Z :=
  Z.of_nat (length s) - Z.of_nat (length (remove_dups s)).

(** Every column is as long as the index. *)
Definition well_formed (df : DataFrame) : Prop :=
  Forall (λ c, length c.2 = index_length df) (frame df).

(** The required fields the frame has, in the order they are required. *)
Definition present_fields (df : DataFrame) (required_fields : list string)
    : list string :=
  filter (λ f, f ∈ pd.columns df) required_fields.

(** A populated cell that does not coerce into the range. *)
Definition invalid_coordinate (lo hi : Z) (c : cell) : Prop :=
  c ≠ NaN ∧ ¬ coerces_within lo hi c.

#[global] Instance invalid_coordinate_dec lo hi c :
  Decision (invalid_coordinate lo hi c).
Proof. unfold invalid_coordinate. apply _. Defined.

(** A populated cell that the vocabulary does not recognise. *)
Definition unrecognised (vocabulary : list string) (c : cell) : Prop :=
  c ≠ NaN ∧ ¬ recognised vocabulary c.

#[global] Instance unrecognised_dec vocabulary c :
  Decision (unrecognised vocabulary c).
Proof. unfold unrecognised. apply _. Defined.

(** In ascending order of the strings. *)
Definition ascending (l : list string) : Prop :=
  StronglySorted (λ a b, String.leb a b = true) l.

(** How many values the dictionary of suggestions holds under a key. *)
Definition entries_at (st : taxonomy_state) (k : string) : nat :=
  length (default [] (invalid_taxon_dict st !! k)).

(** How often a key stands in a list of keys. *)
Definition occurrences (k : string) (l : list string) : nat :=
  length (filter (λ x, x = k) l).

(** The synonyms that have a rank, and those among them whose
    classification has the term. *)
Definition ranked_synonyms (synonyms : list synonym_match) : list synonym_match :=
  filter (λ s, is_Some (synonym_rank s)) synonyms.

Definition ranked_synonyms_with (t : string) (synonyms : list synonym_match)
    : list synonym_match :=
  filter (λ s, is_Some (synonym_cl s !! t)) (ranked_synonyms synonyms).

(** The lists of the dictionary are parallel: all of one length. *)
Definition aligned (st : taxonomy_state) : Prop :=
  ∀ k1 k2, k1 ∈ terms → k2 ∈ terms → entries_at st k1 = entries_at st k2.

(** The batch answer holds the cell as a name. *)
Definition matched (response_json : list classification_match) (item : cell)
    : Prop :=
  Exists (λ d, Str <$> match_scientificName d = Some item) response_json.

#[global] Instance matched_dec response_json item :
  Decision (matched response_json item).
Proof. unfold matched. apply _. Defined.


(** Every key the loop appends to is in the dictionary. *)
Definition keys_ready (st : taxonomy_state) : Prop :=
  ∀ k, k ∈ terms → is_Some (invalid_taxon_dict st !! k).



End specification.

(** ** Sample surroundings

    A runtime that reads and prints whole numbers, sample vocabulary
    constants, and a name service that knows a given list of names, offers no
    suggestion and finds nothing. They serve the concrete cases below. *)

Definition whole_number_runtime : Runtime := {|
  parse_float s := Qc_of_Z ∘ Z.of_int <$> NilZero.int_of_string s;
  str_of_float q := NilZero.string_of_int (Z.to_int (Qnum q));
  list_of_set := remove_dups;
  list_of_set_perm l := reflexivity (remove_dups l);
  list_of_cell_set := remove_dups;
  lower := lower_ascii;
  upper := upper_ascii;
  accessor_lower := lower_ascii;
  series_of_one_converts := true
|}.

Definition sample_vocab : Vocab := {|
  basis_of_record_vocabulary := ["Observation"; "PreservedSpecimen"];
  geodetic_datum_vocabulary := ["WGS84"; "EPSG:4326"];
  taxon_terms_Australia :=
    ["kingdom"; "phylum"; "class"; "order"; "family"; "genus"];
  required_columns_spatial_vocab :=
    ["decimalLatitude"; "decimalLongitude"; "geodeticDatum";
     "coordinateUncertaintyInMeters"];
  required_columns_other := ["basisOfRecord"; "scientificName"; "eventDate"];
  required_taxonomy_columns := ["scientificName"; "vernacularName"; "genus"]
|}.

Definition known_names (known : list string) : NameMatching := {|
  searchAllByClassification names :=
    (λ n, {| match_scientificName := Some n |})
      <$> List.filter (λ n, bool_decide (Str n ∈ names)) known;
  autocomplete _ _ _ := [];
  search _ := {| success := false; search_keys := ∅ |}
|}.

(** Scenario 1 of the specification. *)
Definition scenario_1 : DataFrame := {|
  index_length := 3;
  frame :=
    [("occurrenceID", [Str "a"; Str "b"; Str "c"]);
     ("decimalLatitude", [Num (Qc_of_Z 45); Num (Qc_of_Z 95); Num (Qc_of_Z (-10))]);
     ("decimalLongitude", [Num (Qc_of_Z 100); Num (Qc_of_Z 100); Num (Qc_of_Z 200)])]
|}.

(** Scenario 3 of the specification. *)
Definition scenario_3 : DataFrame := {|
  index_length := 4;
  frame := [("basisOfRecord",
             [Str "Observation"; Str "observation"; Str "Bogus"; NaN])]
|}.

(** Arguments that name every parameter of [DFValidationReport.__init__]
    that has no default. *)
Definition event_report_arguments : list (string * value) :=
  [("record_type", VStr "Event"); ("record_count", VInt 0);
   ("errors", VList []); ("warnings", VList []); ("column_counts", VDict []);
   ("record_error_count", VInt 0); ("coordinates_report", VNone);
   ("records_with_taxonomy_count", VInt 0); ("taxonomy_report", VNone);
   ("records_with_temporal_count", VInt 0);
   ("records_with_recorded_by_count", VInt 0)].

(** One name in a frame that has every taxonomy column of the sample. *)
Definition one_known_name : DataFrame := {|
  index_length := 1;
  frame := [("scientificName", [Str "Acacia"]);
            ("vernacularName", [Str "wattle"]);
            ("genus", [Str "Acacia"])]
|}.

(** A frame that holds [occurrenceID] only: no spatial column, and all
    three columns of the other-required set are missing. *)
Definition occurrence_id_only : DataFrame := {|
  index_length := 1;
  frame := [("occurrenceID", [Str "occ-1"])]
|}.

(** A service without batch answers, with fixed suggestions and a fixed
    search answer. *)
Definition fallback_service (suggestions : list suggestion)
    (found : search_result) : NameMatching := {|
  searchAllByClassification _ := [];
  autocomplete _ _ _ := suggestions;
  search _ := found
|}.



(** ** Properties *)

(** *** Counting *)

Lemma sum_cons (b : bool) (l : list bool) :
  pd.sum (b :: l) = (if b then 1 else 0) + pd.sum l.
Proof. unfold pd.sum. destruct b; simpl; lia. Qed.

Lemma sum_nonneg (l : list bool) : 0 ≤ pd.sum l.
Proof. unfold pd.sum. lia. Qed.

Lemma sum_le_length (l : list bool) : pd.sum l ≤ Z.of_nat (length l).
Proof.
  induction l as [|b l IH]; [done|].
  rewrite sum_cons. cbn [length]. destruct b; lia.
Qed.

Lemma count_non_null (s : Series) : pd.count s = non_null_count s.
Proof.
  unfold pd.count, non_null_count.
  induction s as [|c s IH]; [done|].
  rewrite fmap_cons, sum_cons, filter_cons.
  destruct c; case_decide; try done; cbn [length pd.notnull pd.isna negb]; lia.
Qed.

Lemma isna_sum_unpopulated (s : Series) :
  pd.sum (pd.isna <$> s) = unpopulated_rows s.
Proof.
  unfold unpopulated_rows.
  induction s as [|c s IH]; [done|].
  rewrite fmap_cons, sum_cons, filter_cons.
  destruct c; case_decide; try done; cbn [length pd.notnull pd.isna negb]; lia.
Qed.

Section counting.
Context {runtime : Runtime}.

Lemma between_coerces_within lo hi c :
  pd.between lo hi (pd.to_numeric_cell c) = bool_decide (coerces_within lo hi c).
Proof.
  destruct (decide (coerces_within lo hi c)) as [Hc|Hc].
  - rewrite (bool_decide_true _ Hc). unfold coerces_within in Hc.
    destruct (pd.to_numeric_cell c) as [q|]; [|done]. destruct Hc. simpl.
    by rewrite !bool_decide_true.
  - rewrite (bool_decide_false _ Hc). unfold coerces_within in Hc.
    destruct (pd.to_numeric_cell c) as [q|]; [|done]. simpl.
    apply not_true_is_false. intros Hb. apply Hc.
    apply andb_true_iff in Hb as [Hlo Hhi].
    split; by apply bool_decide_eq_true in Hlo, Hhi.
Qed.

Lemma between_sum_in_range lo hi s :
  pd.sum (pd.between lo hi <$> pd.to_numeric s) = in_range_count lo hi s.
Proof.
  unfold in_range_count, pd.to_numeric.
  induction s as [|c s IH]; [done|].
  rewrite !fmap_cons, sum_cons, filter_cons, between_coerces_within.
  case_decide.
  - rewrite bool_decide_true by done. cbn [length]. lia.
  - rewrite bool_decide_false by done. lia.
Qed.

End counting.

(** *** Coordinates *)

Section coordinates.
Context {runtime : Runtime}.

(** C7. [generate_coordinates_report] returns {false, 0, 0} and leaves the
    warnings as they are when [decimalLatitude] or [decimalLongitude] is
    absent. When both are present and, on each axis, as many values coerce
    into the inclusive range as are non-null, it returns {true, 0, 0} and
    leaves the warnings as they are. In every other case it appends
    [INVALID_OR_OUT_OF_RANGE_COORDINATES] once and returns {true, non-null
    minus valid of the latitude, non-null minus valid of the longitude}. *)
Theorem generate_coordinates_report_cases (dataframe : DataFrame)
    (warnings : list string) :
  let lat := pd.column dataframe "decimalLatitude" in
  let lon := pd.column dataframe "decimalLongitude" in
  let fully_valid :=
    in_range_count (-90) 90 lat = non_null_count lat
    ∧ in_range_count (-180) 180 lon = non_null_count lon in
  ("decimalLatitude" ∉ pd.columns dataframe
   ∨ "decimalLongitude" ∉ pd.columns dataframe →
   generate_coordinates_report dataframe warnings
   = (Build_CoordinatesReport false 0 0, warnings))
  ∧ ("decimalLatitude" ∈ pd.columns dataframe →
     "decimalLongitude" ∈ pd.columns dataframe →
     (fully_valid →
      generate_coordinates_report dataframe warnings
      = (Build_CoordinatesReport true 0 0, warnings))
     ∧ (¬ fully_valid →
        generate_coordinates_report dataframe warnings
        = (Build_CoordinatesReport true
             (non_null_count lat - in_range_count (-90) 90 lat)
             (non_null_count lon - in_range_count (-180) 180 lon),
           warnings ++ ["INVALID_OR_OUT_OF_RANGE_COORDINATES"]))).
Proof.
  intros lat lon fully_valid. unfold generate_coordinates_report, pd.has_column.
  rewrite !between_sum_in_range, !count_non_null.
  fold lat lon. split.
  - intros [Hlat|Hlon].
    + by rewrite (bool_decide_false _ Hlat).
    + rewrite (bool_decide_false _ Hlon). by rewrite orb_true_r.
  - intros Hlat Hlon.
    rewrite (bool_decide_true _ Hlat), (bool_decide_true _ Hlon). simpl.
    split; intros Hvalid.
    + destruct Hvalid as [Hla Hlo]. by rewrite !bool_decide_true.
    + destruct (decide (in_range_count (-90) 90 lat = non_null_count lat)) as [Hla|Hla];
        [rewrite (bool_decide_true _ Hla)|by rewrite (bool_decide_false _ Hla)].
      destruct (decide (in_range_count (-180) 180 lon = non_null_count lon)) as [Hlo|Hlo];
        [|by rewrite (bool_decide_false _ Hlo)].
      destruct Hvalid. by split.
Qed.

(** The valid values are among the non-null ones, so neither deficit is
    negative. *)
Lemma in_range_le_non_null lo hi (s : Series) :
  in_range_count lo hi s ≤ non_null_count s.
Proof.
  unfold in_range_count, non_null_count.
  induction s as [|c s IH]; [done|].
  rewrite !filter_cons.
  destruct (decide (coerces_within lo hi c)) as [Hc|Hc].
  - rewrite decide_True; [cbn [length]; lia|].
    intros ->. by unfold coerces_within in Hc.
  - case_decide; cbn [length]; lia.
Qed.

End coordinates.

(** Scenario 1: one latitude and one longitude are out of range. *)
Lemma generate_coordinates_report_scenario_1 :
  generate_coordinates_report (runtime := whole_number_runtime) scenario_1 []
  = (Build_CoordinatesReport true 1 1, ["INVALID_OR_OUT_OF_RANGE_COORDINATES"]).
Proof.
  refine (proj2 (proj2 (generate_coordinates_report_cases
                          (runtime := whole_number_runtime) scenario_1 []) _ _) _);
    compute_done.
Defined.

(** Scenario 2: without [decimalLatitude] there is nothing to report. *)
Example generate_coordinates_report_scenario_2 :
  generate_coordinates_report (runtime := whole_number_runtime)
    {| index_length := 1; frame := [("decimalLongitude", [Num (Qc_of_Z 10)])] |}
    ["W"]
  = (Build_CoordinatesReport false 0 0, ["W"]).
Proof. reflexivity. Qed.

(** *** Numeric fields *)

Section numeric_fields.
Context {runtime : Runtime}.

(** After the coercion every element is NaN or a number, so the test of
    [validate_numeric_fields] cannot fail. *)
Lemma is_numeric_or_empty_always (x : option Qc) : is_numeric_or_empty x = true.
Proof. by destruct x. Qed.

Lemma validate_numeric_field_silent (dataframe : DataFrame)
    (warnings : list string) (field : string) :
  validate_numeric_field dataframe warnings field = warnings.
Proof.
  unfold validate_numeric_field. destruct (pd.has_column dataframe field); [|done].
  assert (pd.all (is_numeric_or_empty <$> pd.to_numeric (pd.column dataframe field))
          = true) as ->; [|done].
  unfold pd.all. apply forallb_forall. intros b Hb.
  apply in_map_iff in Hb as (x & <- & _). apply is_numeric_or_empty_always.
Qed.

(** C2. Contrary to the specification, no warning is ever appended:
    [validate_numeric_fields]
    applies its test to the coerced column, in which a value that does not
    coerce has become NaN and passes as empty. It therefore returns the
    warnings unchanged for every data frame, whatever the numeric fields
    hold. *)
Theorem validate_numeric_fields_never_warns (dataframe : DataFrame)
    (warnings : list string) :
  validate_numeric_fields dataframe warnings = warnings.
Proof.
  unfold validate_numeric_fields. generalize numeric_fields as fields.
  induction fields as [|f fields IH]; [done|].
  cbn [fold_left]. by rewrite validate_numeric_field_silent.
Qed.

End numeric_fields.

(** A [year] column that holds the word "abc": non-null, not a number, and
    no warning. *)
Example validate_numeric_fields_year_abc :
  ¬ numeric_or_null (runtime := whole_number_runtime) (Str "abc")
  ∧ validate_numeric_fields (runtime := whole_number_runtime)
      {| index_length := 1; frame := [("year", [Str "abc"])] |} []
    = [].
Proof.
  split; [|reflexivity].
  intros [Hnan|[q Hq]]; [discriminate Hnan|]. vm_compute in Hq. discriminate Hq.
Qed.

(** *** Identifier fields *)

Lemma lookup_column_None (f : string) (cols : list (string * Series)) :
  f ∉ cols.*1 → pd.lookup_column f cols = None.
Proof.
  induction cols as [|[n s] cols IH]; [done|].
  rewrite fmap_cons, not_elem_of_cons. intros [Hne Hnot]. cbn.
  rewrite bool_decide_false by done. by apply IH.
Qed.

Lemma lookup_column_is_Some (f : string) (cols : list (string * Series)) :
  f ∈ cols.*1 → is_Some (pd.lookup_column f cols).
Proof.
  induction cols as [|[n s] cols IH]; [by intros ?%elem_of_nil|].
  rewrite fmap_cons, elem_of_cons. intros Hin. cbn.
  destruct (decide (n = f)) as [->|Hne].
  - by rewrite bool_decide_true.
  - rewrite bool_decide_false by done. apply IH. by destruct Hin as [->|].
Qed.

Lemma getitem_absent (df : DataFrame) (f : string) :
  f ∉ pd.columns df → pd.getitem df f = Raise (KeyError f).
Proof. intros Hf. unfold pd.getitem. by rewrite lookup_column_None. Qed.

Lemma getitem_present (df : DataFrame) (f : string) :
  f ∈ pd.columns df → pd.getitem df f = Ok (pd.column df f).
Proof.
  intros Hf. unfold pd.getitem, pd.column.
  by destruct (lookup_column_is_Some f (frame df) Hf) as [s ->].
Qed.

Lemma all_notnull (s : Series) :
  Forall (λ c, c ≠ NaN) s → pd.all (pd.notnull <$> s) = true.
Proof.
  induction 1 as [|c s Hc _ IH]; [done|].
  rewrite fmap_cons. unfold pd.all in *. cbn [forallb]. rewrite IH.
  by destruct c.
Qed.

Section identifiers.

(** No candidates, no check. *)
Lemma check_id_fields_nothing_asked (id_term : string) (df : DataFrame)
    (errors : list string) :
  check_id_fields None id_term df errors = Ok (0, errors)
  ∧ check_id_fields (Some []) id_term df errors = Ok (0, errors).
Proof. done. Qed.

(** A candidate other than the term whose column is absent ends the chain. *)
Lemma check_id_candidates_absent n id_term df f rest errors :
  f ≠ id_term → f ∉ pd.columns df →
  check_id_candidates n id_term df (f :: rest) errors
  = Ok (pd.len df, errors ++ ["MISSING_ID_FIELD"]).
Proof.
  intros Hne Hf. cbn. rewrite (bool_decide_false (id_term = f)) by congruence.
  unfold pd.has_column. by rewrite (bool_decide_false _ Hf).
Qed.

(** A candidate other than the term with an unpopulated value ends it. *)
Lemma check_id_candidates_unpopulated n id_term df f rest errors :
  f ≠ id_term → f ∈ pd.columns df →
  pd.all (pd.notnull <$> pd.column df f) = false →
  check_id_candidates n id_term df (f :: rest) errors
  = Ok (pd.sum (pd.isna <$> pd.column df f),
        errors ++ ["MISSING_ID_FIELD_VALUES"]).
Proof.
  intros Hne Hf Hall. cbn. rewrite (bool_decide_false (id_term = f)) by congruence.
  unfold pd.has_column. rewrite (bool_decide_true _ Hf), getitem_present by done.
  cbn. by rewrite Hall.
Qed.

(** A single, fully populated candidate with a repeated value. *)
Lemma check_id_candidates_duplicates id_term df f errors :
  f ≠ id_term → f ∈ pd.columns df →
  pd.all (pd.notnull <$> pd.column df f) = true →
  pd.nunique (pd.column df f) ≠ pd.len df →
  check_id_fields (Some [f]) id_term df errors
  = Ok (pd.sum (pd.duplicated (pd.column df f)),
        errors ++ ["DUPLICATE_ID_FIELD_VALUES"]).
Proof.
  intros Hne Hf Hall Hdup. cbn. rewrite (bool_decide_false (id_term = f)) by congruence.
  unfold pd.has_column. rewrite (bool_decide_true _ Hf), getitem_present by done.
  cbn. rewrite Hall. by rewrite (bool_decide_false _ Hdup).
Qed.





End identifiers.



Section identifiers_chain.

(** **** The chain as a whole *)

Lemma all_notnull_iff (s : Series) :
  pd.all (pd.notnull <$> s) = true ↔ Forall (λ c, c ≠ NaN) s.
Proof.
  split; [|apply all_notnull].
  unfold pd.all. induction s as [|c s IH]; [by constructor|].
  rewrite fmap_cons. cbn [forallb]. intros [Hc Hs]%andb_true_iff.
  constructor; [by destruct c|by apply IH].
Qed.

Lemma remove_dups_cons_length (c : cell) (l : Series) :
  length (remove_dups (c :: l))
  = S (length (remove_dups (filter (λ x, x ≠ c) l))).
Proof.
  change (S (length (remove_dups (filter (λ x, x ≠ c) l))))
    with (length (c :: remove_dups (filter (λ x, x ≠ c) l))).
  apply Permutation_length, NoDup_Permutation.
  - apply NoDup_remove_dups.
  - constructor; [|apply NoDup_remove_dups].
    rewrite elem_of_remove_dups, list_elem_of_filter. by intros [? _].
  - intros x.
    rewrite elem_of_remove_dups, !elem_of_cons, elem_of_remove_dups,
      list_elem_of_filter.
    destruct (decide (x = c)) as [->|Hne]; [by split; left|].
    split; (intros [Hx|Hx]; [by left|right; tauto]).
Qed.

Lemma duplicated_from_sum (seen s : Series) :
  pd.sum (pd.duplicated_from seen s)
  = Z.of_nat (length s)
    - Z.of_nat (length (remove_dups (filter (λ x, x ∉ seen) s))).
Proof.
  revert seen. induction s as [|c s IH]; intros seen; [done|].
  cbn [pd.duplicated_from]. rewrite sum_cons, IH. cbn [length].
  destruct (decide (c ∈ seen)) as [Hc|Hc].
  - rewrite (bool_decide_true _ Hc), filter_cons_False by tauto.
    rewrite (list_filter_iff (λ x, x ∉ c :: seen) (λ x, x ∉ seen)); [lia|].
    intros x. rewrite not_elem_of_cons. split; [tauto|].
    intros Hx. split; [|done]. by intros ->.
  - rewrite (bool_decide_false _ Hc), filter_cons_True by done.
    rewrite remove_dups_cons_length, list_filter_filter.
    rewrite (list_filter_iff (λ x, x ≠ c ∧ x ∉ seen) (λ x, x ∉ c :: seen)); [lia|].
    intros x. by rewrite not_elem_of_cons.
Qed.

(** [series.duplicated().sum()] counts the rows beyond the first of every
    value. *)
Lemma duplicated_sum (s : Series) : pd.sum (pd.duplicated s) = duplicate_rows s.
Proof.
  unfold pd.duplicated, duplicate_rows. rewrite duplicated_from_sum.
  assert (filter (λ x, x ∉ []) s = s) as ->; [|done].
  induction s as [|c s IH]; [done|].
  rewrite filter_cons_True by apply not_elem_of_nil. by rewrite IH.
Qed.

(** One turn of the loop, with the column resolved as the specification
    says. *)
Lemma check_id_candidates_step n id_term df f rest errors :
  check_id_candidates n id_term df (f :: rest) errors
  = let col := resolved_column id_term f in
    if bool_decide (col ∈ pd.columns df) then
      if pd.all (pd.notnull <$> pd.column df col) then
        if bool_decide (n = 1%nat) then
          if bool_decide (pd.nunique (pd.column df col) = pd.len df)
          then check_id_candidates n id_term df rest errors
          else Ok (pd.sum (pd.duplicated (pd.column df col)),
                   errors ++ ["DUPLICATE_ID_FIELD_VALUES"])
        else check_id_candidates n id_term df rest errors
      else Ok (pd.sum (pd.isna <$> pd.column df col),
               errors ++ ["MISSING_ID_FIELD_VALUES"])
    else if bool_decide (id_term = f) then Raise (KeyError "id")
    else Ok (pd.len df, errors ++ ["MISSING_ID_FIELD"]).
Proof.
  cbn. unfold resolved_column, pd.has_column.
  destruct (decide (id_term = f)) as [Heq|Hne].
  - rewrite !(bool_decide_true (id_term = f)) by done.
    destruct (decide ("id" ∈ pd.columns df)) as [Hid|Hid].
    + by rewrite (bool_decide_true _ Hid), getitem_present.
    + by rewrite (bool_decide_false _ Hid), getitem_absent.
  - rewrite !(bool_decide_false (id_term = f)) by done.
    destruct (decide (f ∈ pd.columns df)) as [Hf|Hf].
    + by rewrite (bool_decide_true _ Hf), getitem_present.
    + by rewrite (bool_decide_false _ Hf).
Qed.

Lemma check_id_candidates_passes n id_term df before rest errors :
  Forall (passes n id_term df) before →
  check_id_candidates n id_term df (before ++ rest) errors
  = check_id_candidates n id_term df rest errors.
Proof.
  induction 1 as [|f before (Hcol & Hpop & Huniq) _ IH]; [done|].
  cbn [app]. rewrite check_id_candidates_step. cbn zeta.
  rewrite (bool_decide_true _ Hcol), all_notnull by done.
  destruct (decide (n = 1%nat)) as [Hn|Hn].
  - by rewrite (bool_decide_true _ Hn), (bool_decide_true _ (Huniq Hn)).
  - by rewrite (bool_decide_false _ Hn).
Qed.

Lemma check_id_fields_candidates fields id_term df errors :
  check_id_fields (Some fields) id_term df errors
  = check_id_candidates (length fields) id_term df fields errors.
Proof. by destruct fields. Qed.

(** C6. The chain of [check_id_fields], candidate by candidate. No
    candidates: 0 and no error. All candidates pass: 0 and no error.
    Otherwise the first candidate that does not pass decides. If its
    resolved column is absent, [MISSING_ID_FIELD] is appended and the row
    count returned, except when the candidate is the term itself: then the
    code reads [dataframe['id']] unguarded and the call raises [KeyError],
    contrary to the specification. If the column has unpopulated values,
    [MISSING_ID_FIELD_VALUES] is appended and their number returned. If it
    is the only candidate, fully populated, with a repeated value,
    [DUPLICATE_ID_FIELD_VALUES] is appended and the number of duplicated
    rows returned. *)
Theorem check_id_fields_chain (id_term : string) (df : DataFrame)
    (errors : list string) :
  check_id_fields None id_term df errors = Ok (0, errors)
  ∧ check_id_fields (Some []) id_term df errors = Ok (0, errors)
  ∧ (∀ fields,
       Forall (passes (length fields) id_term df) fields →
       check_id_fields (Some fields) id_term df errors = Ok (0, errors))
  ∧ (∀ before f after,
       let fields := before ++ f :: after in
       let col := resolved_column id_term f in
       Forall (passes (length fields) id_term df) before →
       (col ∉ pd.columns df →
        check_id_fields (Some fields) id_term df errors
        = if bool_decide (id_term = f) then Raise (KeyError "id")
          else Ok (pd.len df, errors ++ ["MISSING_ID_FIELD"]))
       ∧ (col ∈ pd.columns df →
          ¬ Forall (λ c, c ≠ NaN) (pd.column df col) →
          check_id_fields (Some fields) id_term df errors
          = Ok (unpopulated_rows (pd.column df col),
                errors ++ ["MISSING_ID_FIELD_VALUES"]))
       ∧ (col ∈ pd.columns df →
          Forall (λ c, c ≠ NaN) (pd.column df col) →
          before = [] → after = [] →
          pd.nunique (pd.column df col) ≠ pd.len df →
          check_id_fields (Some fields) id_term df errors
          = Ok (duplicate_rows (pd.column df col),
                errors ++ ["DUPLICATE_ID_FIELD_VALUES"]))).
Proof.
  split; [done|]. split; [done|]. split.
  - intros fields Hpass. rewrite check_id_fields_candidates.
    rewrite <- (app_nil_r fields) at 2.
    by rewrite check_id_candidates_passes.
  - intros before f after fields col Hpass.
    rewrite check_id_fields_candidates. unfold fields at 2 4 6.
    rewrite check_id_candidates_passes, check_id_candidates_step by done.
    cbn zeta. fold col. split; [|split].
    + intros Hcol. by rewrite (bool_decide_false _ Hcol).
    + intros Hcol Hpop. rewrite (bool_decide_true _ Hcol).
      destruct (pd.all _) eqn:Hall; [by apply all_notnull_iff in Hall|].
      by rewrite isna_sum_unpopulated.
    + intros Hcol Hpop -> -> Hdup.
      rewrite (bool_decide_true _ Hcol), all_notnull by done.
      rewrite (bool_decide_true (length fields = 1%nat)) by done.
      by rewrite (bool_decide_false _ Hdup), duplicated_sum.
Qed.

End identifiers_chain.

(** The only candidate is the term and the frame has no [id] column: the
    resolved column is absent, and the lookup raises. *)
Lemma check_id_fields_alias_column_absent :
  check_id_fields (Some ["occurrenceID"]) "occurrenceID"
    {| index_length := 2; frame := [("occurrenceID", [Str "a"; Str "b"])] |} []
  = Raise (KeyError "id").
Proof.
  pose proof (check_id_fields_chain "occurrenceID"
                {| index_length := 2;
                   frame := [("occurrenceID", [Str "a"; Str "b"])] |} [])
    as (_ & _ & _ & Hfirst).
  destruct (Hfirst [] "occurrenceID" []) as (Habsent & _); [constructor|].
  apply Habsent. compute_done.
Defined.

(** Two of three identifiers are the same: one duplicated row. *)
Example check_id_fields_one_duplicate :
  check_id_fields (Some ["occurrenceID"]) ""
    {| index_length := 3;
       frame := [("occurrenceID", [Str "a"; Str "b"; Str "a"])] |} []
  = Ok (1, ["DUPLICATE_ID_FIELD_VALUES"]).
Proof. vm_compute. reflexivity. Qed.

(** *** Constructing the reports *)

Lemma returns_bind {A B} (m : outcome A) (f : A → outcome B) :
  (∀ a, returns (f a) = false) → returns (m ≫= f) = false.
Proof. intros Hf. destruct m; [apply Hf|done|done]. Qed.

(** The call of [validate_occurrence_dataframe] names neither
    [records_with_taxonomy_count] nor [records_with_recorded_by_count],
    which have no default. *)
Lemma DFValidationReport_occurrence_call (v1 v2 v3 v4 v5 v6 v7 v8 v9 v10 v11 v12 : value) :
  DFValidationReport []
    [("record_type", v1); ("record_count", v2); ("record_error_count", v3);
     ("errors", v4); ("warnings", v5); ("all_required_columns_present", v6);
     ("missing_columns", v7); ("column_counts", v8);
     ("records_with_temporal_count", v9); ("coordinates_report", v10);
     ("taxonomy_report", v11); ("vocab_reports", v12)]
  = Raise (TypeError "missing a required argument").
Proof. vm_compute. reflexivity. Qed.

(** The call of [validate_event_dataframe] does not name [taxonomy_report],
    which has no default. *)
Lemma DFValidationReport_event_call (v1 v2 v3 v4 v5 v6 v7 v8 v9 v10 v11 : value) :
  DFValidationReport []
    [("record_type", v1); ("record_count", v2); ("record_error_count", v3);
     ("errors", v4); ("warnings", v5); ("coordinates_report", v6);
     ("records_with_taxonomy_count", v7); ("records_with_temporal_count", v8);
     ("records_with_recorded_by_count", v9); ("column_counts", v10);
     ("vocab_reports", v11)]
  = Raise (TypeError "missing a required argument").
Proof. vm_compute. reflexivity. Qed.

(** The call of [create_taxonomy_report] names [valid_taxon_count], which
    is not a parameter of [TaxonReport.__init__]. *)
Lemma TaxonReport_taxonomy_call (v1 v2 v3 : value) :
  TaxonReport []
    [("has_invalid_taxa", v1); ("unrecognised_taxa", v2);
     ("valid_taxon_count", v3)]
  = Raise (TypeError "got an unexpected keyword argument").
Proof. vm_compute. reflexivity. Qed.

(** With every parameter that has no default named, the construction
    goes through. *)
Example DFValidationReport_complete_call :
  returns (DFValidationReport [] event_report_arguments) = true.
Proof. vm_compute. reflexivity. Qed.

(** C9. Contrary to the specification, reports share containers: the
    defaults
    [unrecognised_taxa = []], [suggested_names = {}] and
    [missing_columns = []] are created once, when the [def] is executed, and
    every construction that leaves them unsupplied stores a reference to
    that one container. An element appended through one report is read
    through the other. *)
Theorem default_containers_are_shared (x : value) :
  let σ := model_store model in
  (∃ r1 r2 taxa1 taxa2 σ',
     TaxonReport [] [] = Ok r1 ∧ TaxonReport [] [] = Ok r2
     ∧ getattr r1 "unrecognised_taxa" = Ok taxa1
     ∧ getattr r2 "unrecognised_taxa" = Ok taxa2
     ∧ deref σ taxa2 = Some (ListObject [])
     ∧ list_append σ taxa1 x = Ok σ'
     ∧ deref σ' taxa2 = Some (ListObject [x]))
  ∧ (∃ r1 r2 names1 names2 σ',
       TaxonReport [] [] = Ok r1 ∧ TaxonReport [] [] = Ok r2
       ∧ getattr r1 "suggested_names" = Ok names1
       ∧ getattr r2 "suggested_names" = Ok names2
       ∧ deref σ names2 = Some (DictObject [])
       ∧ dict_setitem σ names1 "k" x = Ok σ'
       ∧ deref σ' names2 = Some (DictObject [("k", x)]))
  ∧ (∃ r1 r2 missing1 missing2 σ',
       DFValidationReport [] event_report_arguments = Ok r1
       ∧ DFValidationReport [] event_report_arguments = Ok r2
       ∧ getattr r1 "missing_columns" = Ok missing1
       ∧ getattr r2 "missing_columns" = Ok missing2
       ∧ deref σ missing2 = Some (ListObject [])
       ∧ list_append σ missing1 x = Ok σ'
       ∧ deref σ' missing2 = Some (ListObject [x])).
Proof.
  intros σ. split; [|split].
  - eexists _, _, _, _, _. repeat split; vm_compute; reflexivity.
  - eexists _, _, _, _, _. repeat split; vm_compute; reflexivity.
  - eexists _, _, _, _, _. repeat split; vm_compute; reflexivity.
Qed.

(** *** The two entry points *)

Section entry_points.
Context {runtime : Runtime} {vocab : Vocab} {service : NameMatching}.

(** C1. Contrary to the specification, neither entry point
    returns a report, for any data frame. Whatever the steps before it do,
    the final [DFValidationReport(...)] call leaves out parameters that have
    no default and raises [TypeError]. *)
Theorem entry_points_never_return (dataframe : DataFrame)
    (id_fields : option (list string)) (id_term : string) :
  returns (validate_occurrence_dataframe dataframe id_fields id_term) = false
  ∧ returns (validate_event_dataframe dataframe) = false.
Proof.
  split.
  - unfold validate_occurrence_dataframe.
    apply returns_bind; intros [record_error_count errors].
    apply returns_bind; intros [missing_columns taxonomy_report].
    destruct (generate_coordinates_report _ _) as [coordinates_report warnings].
    do 3 (apply returns_bind; intros ?).
    by rewrite DFValidationReport_occurrence_call.
  - unfold validate_event_dataframe.
    apply returns_bind; intros [record_error_count errors].
    destruct (generate_coordinates_report _ _) as [coordinates_report warnings].
    do 3 (apply returns_bind; intros ?).
    by rewrite DFValidationReport_event_call.
Qed.

(** C4. Contrary to the specification, for a data frame with a
    [scientificName] column [create_taxonomy_report] returns nothing. When
    the loop and the count go through, the [TaxonReport(...)] call names
    [valid_taxon_count], which [TaxonReport.__init__] does not accept, and
    raises [TypeError]. *)
Theorem create_taxonomy_report_never_returns (dataframe : DataFrame)
    (num_matches : Z) (include_synonyms : bool) :
  "scientificName" ∈ pd.columns dataframe →
  returns (create_taxonomy_report dataframe num_matches include_synonyms) = false.
Proof.
  intros Hname. unfold create_taxonomy_report.
  rewrite (bool_decide_true _ Hname). cbn [negb].
  do 2 (apply returns_bind; intros ?).
  by rewrite TaxonReport_taxonomy_call.
Qed.

(** The count that would be stored starts from 999 and only goes down, so
    no count above 999 is ever computed. *)
Lemma lowest_count_le (rows : Z) (entries : list (string * Z)) (start : Z) :
  lowest_count rows entries start ≤ start.
Proof.
  revert start. induction entries as [|e entries IH]; intros start; [done|].
  cbn [lowest_count]. etrans; [apply IH|].
  destruct (negb _ && _ && (e.2 <? start)) eqn:Hc; [|done].
  apply andb_true_iff in Hc as [_ Hc]. apply Z.ltb_lt in Hc. lia.
Qed.

Lemma count_valid_taxa_at_most_999 (dataframe : DataFrame) (invalid : bool) (n : Z) :
  count_valid_taxa dataframe invalid = Ok n → n ≤ 999.
Proof.
  unfold count_valid_taxa. destruct invalid; cbn [negb].
  - intros [= <-]. done.
  - destruct (pd.items _) as [entries| |]; [|done|done]. cbn.
    intros [= <-].
    pose proof (lowest_count_le (pd.len dataframe) entries 999).
    destruct (pd.len dataframe <? _) eqn:Hlt; [|done].
    apply Z.ltb_lt in Hlt. lia.
Qed.

End entry_points.

(** One recognised name in a frame that has every taxonomy column: the
    count is computed, and the construction of the report raises. *)
Lemma create_taxonomy_report_one_known_name :
  returns (create_taxonomy_report (runtime := whole_number_runtime)
             (vocab := sample_vocab) (service := known_names ["Acacia"])
             one_known_name 5 true) = false.
Proof.
  apply (create_taxonomy_report_never_returns (runtime := whole_number_runtime)
           (vocab := sample_vocab) (service := known_names ["Acacia"])
           one_known_name 5 true).
  compute_done.
Defined.

Example create_taxonomy_report_one_known_name_raises :
  count_valid_taxa (vocab := sample_vocab) one_known_name false = Ok 1
  ∧ create_taxonomy_report (runtime := whole_number_runtime)
      (vocab := sample_vocab) (service := known_names ["Acacia"])
      one_known_name 5 true
    = Raise (TypeError "got an unexpected keyword argument").
Proof. split; vm_compute; reflexivity. Qed.

(** A thousand rows, every taxonomy column fully populated: the count that
    is computed is the sentinel 999, not the thousand populated rows. *)
Example count_valid_taxa_thousand_rows :
  count_valid_taxa (vocab := sample_vocab)
    {| index_length := 1000;
       frame := [("scientificName", replicate 1000 (Str "Acacia"));
                 ("vernacularName", replicate 1000 (Str "wattle"));
                 ("genus", replicate 1000 (Str "Acacia"))] |}
    false
  = Ok 999.
Proof. vm_compute. reflexivity. Qed.

(** An empty frame without columns: every step goes through, and the
    construction of the report raises. *)
Example entry_points_empty_frame :
  validate_occurrence_dataframe (runtime := whole_number_runtime)
    (vocab := sample_vocab) (service := known_names [])
    {| index_length := 0; frame := [] |} None ""
  = Raise (TypeError "missing a required argument")
  ∧ validate_event_dataframe (runtime := whole_number_runtime)
      (vocab := sample_vocab)
      {| index_length := 0; frame := [("eventID", [])] |}
    = Raise (TypeError "missing a required argument").
Proof. split; vm_compute; reflexivity. Qed.

(** *** Required columns *)

Section required_columns.
Context {runtime : Runtime} {vocab : Vocab}.

(** C3. Contrary to the specification, the columns missing from the
    other-required set are never listed: when the frame has no
    column of the spatial set, the test [type(check_missing_fields) is not
    bool] guards the branch that would compute the difference and append the
    two [MAYBE] entries, and [check_missing_fields] is always a bool. The
    step therefore leaves [missing_columns] as it found it, whatever columns
    of the other-required set are missing. *)
Theorem other_required_columns_never_listed (dataframe : DataFrame)
    (missing_columns : list string) :
  Forall (λ c, c ∉ required_columns_spatial_vocab) (pd.columns dataframe) →
  check_spatial_columns dataframe missing_columns = missing_columns.
Proof.
  intros Hnone. unfold check_spatial_columns.
  assert (existsb (λ v, bool_decide (v ∈ required_columns_spatial_vocab))
            (pd.columns dataframe) = false) as ->; [|done].
  induction Hnone as [|c cols Hc _ IH]; [done|].
  cbn [existsb]. by rewrite (bool_decide_false _ Hc), IH.
Qed.

(** The flag is set exactly when the list that reaches line 105 is empty. *)
Lemma all_columns_present_iff (missing_columns : list string) :
  all_columns_present missing_columns = true ↔ missing_columns = [].
Proof.
  unfold all_columns_present. rewrite bool_decide_eq_true.
  by destruct missing_columns.
Qed.

End required_columns.

(** A frame that holds [occurrenceID] only has no spatial column: the step
    leaves the empty list empty. *)
Lemma other_required_columns_never_listed_occurrence_id_only :
  check_spatial_columns (runtime := whole_number_runtime)
    (vocab := sample_vocab) occurrence_id_only []
  = [].
Proof.
  apply (other_required_columns_never_listed (runtime := whole_number_runtime)
           (vocab := sample_vocab) occurrence_id_only []).
  repeat constructor. compute_done.
Defined.

(** On that frame the list that reaches the report is empty and the flag is
    set, where the specification has the three missing columns and the two
    [MAYBE]
    entries. *)
Example required_columns_occurrence_id_only :
  list_difference (required_columns_other (Vocab := sample_vocab))
    (pd.columns occurrence_id_only)
  = ["basisOfRecord"; "scientificName"; "eventDate"]
  ∧ check_taxonomy_columns (runtime := whole_number_runtime)
      (vocab := sample_vocab) (service := known_names []) occurrence_id_only []
    = Ok ([], VNone)
  ∧ check_any_identifier occurrence_id_only
      (check_spatial_columns (runtime := whole_number_runtime)
         (vocab := sample_vocab) occurrence_id_only [])
    = []
  ∧ all_columns_present [] = true.
Proof. repeat split; vm_compute; reflexivity. Qed.

(** *** Names *)

Section taxonomy.
Context {runtime : Runtime} {vocab : Vocab} {service : NameMatching}.

Lemma initial_taxonomy_state_ready : keys_ready initial_taxonomy_state.
Proof.
  intros k Hk. apply not_eq_None_Some.
  unfold initial_taxonomy_state, invalid_taxon_dict.
  rewrite <- not_elem_of_list_to_map, <- list_fmap_compose.
  intros Hnot. apply Hnot. by rewrite list_fmap_id.
Qed.

Lemma dict_append_ready k v st :
  keys_ready st → k ∈ terms →
  ∃ st', dict_append k v st = Ok st' ∧ keys_ready st'
         ∧ has_invalid_taxa st' = has_invalid_taxa st.
Proof.
  intros Hready Hk. unfold dict_append.
  destruct (Hready k Hk) as [l ->]. eexists. split; [done|]. split; [|done].
  intros k' Hk'. cbn. destruct (decide (k = k')) as [->|Hne].
  - by rewrite lookup_insert_eq.
  - rewrite lookup_insert_ne by done. by apply Hready.
Qed.

Lemma bind_term_ready t st : keys_ready st → keys_ready (bind_term t st).
Proof. done. Qed.

Lemma append_match_ready item proposed rank st :
  keys_ready st →
  ∃ st', append_match item proposed rank st = Ok st' ∧ keys_ready st'
         ∧ has_invalid_taxa st' = has_invalid_taxa st.
Proof.
  intros Hready. unfold append_match, terms.
  destruct (dict_append_ready "original name" (Some item) st Hready)
    as (st1 & -> & Hready1 & Hflag1); [set_solver|].
  destruct (dict_append_ready "proposed match(es)" (Some proposed) st1 Hready1)
    as (st2 & E2 & Hready2 & Hflag2); [set_solver|].
  destruct (dict_append_ready "rank of proposed match(es)" rank st2 Hready2)
    as (st3 & E3 & Hready3 & Hflag3); [set_solver|].
  exists st3. cbn. rewrite E2. cbn. rewrite E3. repeat split; [done|congruence].
Qed.


Lemma taxon_terms_in_terms : taxon_terms_Australia ⊆ terms.
Proof. unfold terms. set_solver. Qed.

Lemma check_names_app n b response_json (l1 l2 : list cell) st :
  check_names n b response_json (l1 ++ l2) st
  = check_names n b response_json l1 st ≫= check_names n b response_json l2.
Proof.
  revert st. induction l1 as [|c l1 IH]; intros st; [done|].
  cbn [app check_names].
  destruct (check_name n b response_json c st) as [st'| |]; [apply IH|done|done].
Qed.



End taxonomy.

(** *** Vocabulary *)

Lemma insert_sorted_perm (s : string) (l : list string) :
  pd.insert_sorted s l ≡ₚ s :: l.
Proof.
  induction l as [|t l IH]; [done|].
  cbn. destruct (String.leb s t); [done|].
  rewrite IH. apply Permutation_swap.
Qed.

Lemma unique_perm (l : list string) : pd.unique l ≡ₚ remove_dups l.
Proof.
  unfold pd.unique. induction (remove_dups l) as [|s r IH]; [done|].
  cbn. by rewrite insert_sorted_perm, IH.
Qed.

Lemma unique_NoDup (l : list string) : NoDup (pd.unique l).
Proof. rewrite unique_perm. apply NoDup_remove_dups. Qed.

Lemma elem_of_unique (x : string) (l : list string) : x ∈ pd.unique l ↔ x ∈ l.
Proof. rewrite unique_perm. apply elem_of_remove_dups. Qed.

Lemma list_remove_first_sublist (x : string) (l : list string) :
  list_remove_first x l `sublist_of` l.
Proof.
  induction l as [|y l IH]; [done|].
  cbn. case_bool_decide; [by apply sublist_cons|by apply sublist_skip].
Qed.

Lemma list_remove_first_gone (x : string) (l : list string) :
  NoDup l → x ∉ list_remove_first x l.
Proof.
  induction 1 as [|y l Hy _ IH]; [by intros ?%elem_of_nil|].
  cbn. case_bool_decide as Hxy; [by subst|].
  rewrite not_elem_of_cons. split; [done|apply IH].
Qed.

Lemma loc_not_fmap (g : cell → bool) (s : Series) :
  loc_not (g <$> s) s = List.filter (λ c, negb (g c)) s.
Proof.
  induction s as [|c s IH]; [done|].
  cbn. destruct (g c); cbn; by rewrite IH.
Qed.

Section vocabulary.
Context {runtime : Runtime}.

Lemma isin_lower (vocabulary : list string) (s : Series) :
  pd.isin (lower <$> vocabulary) (pd.lower_cell <$> s)
  = (λ c, bool_decide (recognised vocabulary c)) <$> s.
Proof.
  unfold pd.isin. rewrite <- list_fmap_compose. apply list_fmap_ext.
  intros _ c _. by destruct c.
Qed.

Lemma sum_recognised (vocabulary : list string) (s : Series) :
  pd.sum ((λ c, bool_decide (recognised vocabulary c)) <$> pd.dropna s)
  = recognised_rows vocabulary s.
Proof.
  unfold recognised_rows, pd.dropna.
  induction s as [|c s IH]; [done|].
  rewrite filter_cons. destruct c as [|v|q]; cbn [List.filter pd.notnull pd.isna negb].
  - case_decide as Hr; [destruct Hr|done].
  - rewrite fmap_cons, sum_cons, IH. case_decide.
    + rewrite bool_decide_true by done. cbn [length]. lia.
    + rewrite bool_decide_false by done. lia.
  - rewrite fmap_cons, sum_cons, IH. case_decide as Hr; [destruct Hr|].
    rewrite bool_decide_false by (intros []). lia.
Qed.

Lemma str_accessor_dropna (s : Series) :
  pd.str_accessor_ok s = true → pd.dropna s ≠ [] →
  pd.str_accessor_ok (pd.dropna s) = true.
Proof.
  unfold pd.str_accessor_ok, pd.dropna. intros Hok Hne.
  apply orb_true_iff in Hok as [Hstr|Hna].
  - apply orb_true_iff. left. apply existsb_exists.
    apply existsb_exists in Hstr as (c & Hc & Hs).
    exists c. split; [|done]. apply filter_In. split; [done|]. by destruct c.
  - exfalso. apply Hne. clear Hne.
    induction s as [|c s IH]; [done|]. cbn in Hna.
    apply andb_true_iff in Hna as [Hc Hna]. cbn. destruct c; try done.
    by apply IH.
Qed.

Lemma numbers_have_no_accessor (s : Series) :
  existsb pd.is_str s = false → pd.dropna s ≠ [] →
  pd.str_accessor_ok (pd.dropna s) = false.
Proof.
  unfold pd.str_accessor_ok, pd.dropna. intros Hstr Hne.
  apply orb_false_iff. split.
  - apply not_true_is_false. intros (c & Hc & Hs)%existsb_exists.
    apply filter_In in Hc as [Hc _].
    assert (existsb pd.is_str s = true) as Habs; [|congruence].
    apply existsb_exists. by exists c.
  - destruct (List.filter pd.notnull s) as [|c r] eqn:Hf; [done|].
    assert (In c (List.filter pd.notnull s)) as Hc by (rewrite Hf; by left).
    apply filter_In in Hc as [_ Hc]. cbn. by destruct c.
Qed.


(** The sample of values outside the vocabulary: at most ten, all
    different, none of them ["nan"], each the printed form of a cell of the
    column that the vocabulary does not recognise. *)
Lemma non_matching_sample_text_column (df : DataFrame) (f : string)
    (vocabulary : list string) :
  pd.str_accessor_ok (pd.column df f) = true →
  ∃ sample,
    non_matching_sample df f (lower <$> vocabulary) = Ok sample
    ∧ (length sample ≤ 10)%nat ∧ NoDup sample ∧ ("nan" ∉ sample)
    ∧ (∀ v, v ∈ sample →
            ∃ c, c ∈ pd.column df f ∧ ¬ recognised vocabulary c
                 ∧ pd.astype_str c = v).
Proof.
  intros Hok. unfold non_matching_sample, pd.str_lower. rewrite Hok. cbn.
  rewrite isin_lower, loc_not_fmap.
  set (x := List.filter _ (pd.column df f)).
  set (first_ten := take 10 (pd.unique (pd.astype_str <$> x))).
  assert (NoDup first_ten) as Hnodup.
  { eapply sublist_NoDup; [apply unique_NoDup|apply sublist_take]. }
  assert ((length first_ten ≤ 10)%nat) as Hlen.
  { unfold first_ten. rewrite length_take. lia. }
  assert (∀ v, v ∈ first_ten →
               ∃ c, c ∈ pd.column df f ∧ ¬ recognised vocabulary c
                    ∧ pd.astype_str c = v) as Hfrom.
  { intros v Hv. apply elem_of_take in Hv as (i & Hv & _).
    apply list_elem_of_lookup_2, elem_of_unique, list_elem_of_fmap in Hv
      as (c & -> & Hc).
    apply list_elem_of_In, filter_In in Hc as [Hc Hout].
    exists c. split; [by apply list_elem_of_In|]. split; [|done].
    apply negb_true_iff in Hout. by apply bool_decide_eq_false in Hout. }
  eexists. split; [done|]. case_bool_decide as Hnan.
  - pose proof (list_remove_first_sublist "nan" first_ten) as Hsub.
    split; [apply sublist_length in Hsub; lia|].
    split; [by eapply sublist_NoDup|].
    split; [by apply list_remove_first_gone|].
    intros v Hv. apply Hfrom. by eapply elem_of_sublist.
  - done.
Qed.

(** X6. On a column that the frame has and that the [.str] accessor
    accepts, [create_vocabulary_report] returns a report, as the
    specification describes it: [has_field] is true, [recognised_count] is
    the number of cells whose lower-case form is that of a word of the
    vocabulary, [unrecognised_count] is the row count less the unpopulated
    and the recognised cells, so that the three add up to the row count, and
    the sample holds at most ten values, none twice and none of them
    ["nan"], each the text of a cell of the column that is not recognised. *)
Lemma create_vocabulary_report_text_column (df : DataFrame) (f : string)
    (vocabulary : list string) :
  f ∈ pd.columns df →
  pd.str_accessor_ok (pd.column df f) = true →
  ∃ report,
    create_vocabulary_report df f vocabulary = Ok report
    ∧ field report = f ∧ has_field report = true
    ∧ recognised_count report = recognised_rows vocabulary (pd.column df f)
    ∧ unrecognised_count report
      = pd.len df - (unpopulated_rows (pd.column df f) + recognised_count report)
    ∧ recognised_count report + unrecognised_count report
      + unpopulated_rows (pd.column df f) = pd.len df
    ∧ (length (non_matching_values report) ≤ 10)%nat
    ∧ NoDup (non_matching_values report)
    ∧ ("nan" ∉ non_matching_values report)
    ∧ (∀ v, v ∈ non_matching_values report →
            ∃ c, c ∈ pd.column df f ∧ ¬ recognised vocabulary c
                 ∧ pd.astype_str c = v).
Proof.
  intros Hf Hok. unfold create_vocabulary_report, pd.has_column.
  rewrite (bool_decide_true _ Hf). cbn [negb]. rewrite isna_sum_unpopulated.
  case_bool_decide as Hpop.
  - assert (pd.dropna (pd.column df f) ≠ []) as Hne.
    { intros Hnil. rewrite Hnil in Hpop. cbn in Hpop. lia. }
    unfold pd.str_lower at 1. rewrite (str_accessor_dropna _ Hok Hne). cbn.
    rewrite isin_lower, sum_recognised.
    destruct (non_matching_sample_text_column df f vocabulary Hok)
      as (sample & -> & Hlen & Hnodup & Hnan & Hfrom).
    cbn. eexists. split; [done|]. cbn. repeat split; try done. lia.
  - cbn. eexists. split; [done|]. cbn.
    assert (recognised_rows vocabulary (pd.column df f) = 0) as Hzero.
    { rewrite <- sum_recognised.
      destruct (pd.dropna (pd.column df f)); [done|]. cbn in Hpop. lia. }
    rewrite Hzero. repeat split; try done; try lia; try apply NoDup_nil_2.
    + apply not_elem_of_nil.
    + by intros v ?%elem_of_nil.
Qed.

(** Without the column there is nothing to count. *)
Lemma create_vocabulary_report_absent (df : DataFrame) (f : string)
    (vocabulary : list string) :
  f ∉ pd.columns df →
  create_vocabulary_report df f vocabulary
  = Ok (Build_VocabularyReport f false 0 0 []).
Proof.
  intros Hf. unfold create_vocabulary_report, pd.has_column.
  by rewrite (bool_decide_false _ Hf).
Qed.

(** C8. Contrary to the specification, no report is returned for a column
    that is present and populated but holds no string, such as a
    [geodeticDatum] given as EPSG numbers: the [.str.lower()] on the
    populated values raises [AttributeError], and unlike the one that
    collects the sample it is not inside the [try]. (On every other column
    the report is as specified, see [create_vocabulary_report_text_column]
    and [create_vocabulary_report_absent].) *)
Theorem create_vocabulary_report_numbers (df : DataFrame) (f : string)
    (vocabulary : list string) :
  f ∈ pd.columns df →
  existsb pd.is_str (pd.column df f) = false →
  pd.dropna (pd.column df f) ≠ [] →
  create_vocabulary_report df f vocabulary
  = Raise (AttributeError "Can only use .str accessor with string values!").
Proof.
  intros Hf Hstr Hne. unfold create_vocabulary_report, pd.has_column.
  rewrite (bool_decide_true _ Hf). cbn [negb].
  rewrite bool_decide_true.
  - unfold pd.str_lower. by rewrite numbers_have_no_accessor.
  - destruct (pd.dropna (pd.column df f)); [done|]. cbn. lia.
Qed.

End vocabulary.

(** Scenario 3: two recognised values, one unrecognised, one missing. *)
Example create_vocabulary_report_scenario_3 :
  create_vocabulary_report (runtime := whole_number_runtime) scenario_3
    "basisOfRecord" ["Observation"; "PreservedSpecimen"]
  = Ok (Build_VocabularyReport "basisOfRecord" true 2 1 ["Bogus"]).
Proof. vm_compute. reflexivity. Qed.

(** A [geodeticDatum] column that holds the EPSG code 4326. *)
Lemma create_vocabulary_report_numeric_column :
  create_vocabulary_report (runtime := whole_number_runtime)
    {| index_length := 1; frame := [("geodeticDatum", [Num (Qc_of_Z 4326)])] |}
    "geodeticDatum" ["WGS84"; "EPSG:4326"]
  = Raise (AttributeError "Can only use .str accessor with string values!").
Proof.
  apply (create_vocabulary_report_numbers (runtime := whole_number_runtime));
    [compute_done|reflexivity|discriminate].
Defined.

(** ** Further properties of validate.py *)

(** *** [validate_required_fields] *)

Lemma filter_bool_decide {A} (P : A → Prop) `{!∀ x, Decision (P x)} (l : list A) :
  List.filter (λ x, bool_decide (P x)) l = filter P l.
Proof.
  induction l as [|x l IH]; [done|].
  cbn [List.filter]. rewrite filter_cons, IH.
  by destruct (decide (P x)) as [HP|HP];
    [rewrite (bool_decide_true _ HP)|rewrite (bool_decide_false _ HP)].
Qed.

Lemma existsb_has_column (df : DataFrame) (required_fields : list string) :
  existsb (pd.has_column df) required_fields = true
  ↔ present_fields df required_fields ≠ [].
Proof.
  unfold present_fields, pd.has_column.
  induction required_fields as [|f fields IH]; [done|].
  cbn [existsb]. rewrite filter_cons, orb_true_iff, IH.
  destruct (decide (f ∈ pd.columns df)) as [Hf|Hf].
  - rewrite (bool_decide_true _ Hf). split; [done|by left].
  - rewrite (bool_decide_false _ Hf). split; [|by right]. by intros [?|?].
Qed.

Lemma validate_required_fields_value (df : DataFrame)
    (required_fields : list string) :
  validate_required_fields df required_fields
  = match present_fields df required_fields with
    | [] => pd.IntZero
    | present =>
        pd.PerColumn ((λ f, (f, non_null_count (pd.column df f))) <$> present)
    end.
Proof.
  unfold validate_required_fields.
  pose proof (existsb_has_column df required_fields) as Hex.
  unfold pd.has_column in *. rewrite filter_bool_decide. fold (present_fields df required_fields).
  destruct (existsb _ _), (present_fields df required_fields) as [|f present];
    cbn [negb].
  - exfalso. exact (proj1 Hex eq_refl eq_refl).
  - f_equal. apply list_fmap_ext. intros _ g _. by rewrite count_non_null.
  - done.
  - assert (false = true) as Habs by (by apply Hex). discriminate Habs.
Qed.

Lemma non_null_count_bounds (s : Series) :
  0 ≤ non_null_count s ≤ Z.of_nat (length s).
Proof.
  unfold non_null_count. pose proof (length_filter (λ c, c ≠ NaN) s). lia.
Qed.

(** X1. [validate_required_fields] returns the int 0 when the frame has
    none of the required fields. Otherwise it returns one count per required
    field that the frame has, in the order of the required list, fields the
    frame lacks being skipped; each count is the number of populated cells of
    that column, between 0 and the length of the column. *)
Theorem validate_required_fields_counts (df : DataFrame)
    (required_fields : list string) :
  (Forall (λ f, f ∉ pd.columns df) required_fields →
   validate_required_fields df required_fields = pd.IntZero)
  ∧ (Exists (λ f, f ∈ pd.columns df) required_fields →
     ∃ entries,
       validate_required_fields df required_fields = pd.PerColumn entries
       ∧ entries.*1 = present_fields df required_fields
       ∧ Forall (λ e, e.1 ∈ required_fields ∧ e.1 ∈ pd.columns df
                      ∧ e.2 = non_null_count (pd.column df e.1)
                      ∧ 0 ≤ e.2 ≤ Z.of_nat (length (pd.column df e.1)))
           entries).
Proof.
  rewrite validate_required_fields_value. split.
  - intros Hnone. assert (present_fields df required_fields = []) as ->; [|done].
    unfold present_fields. induction Hnone as [|f fields Hf _ IH]; [done|].
    by rewrite filter_cons_False.
  - intros Hsome.
    destruct (present_fields df required_fields) as [|f present] eqn:Hp.
    { exfalso. apply List.Exists_exists in Hsome as (g & Hg & Hcol).
      apply list_elem_of_In in Hg.
      assert (g ∈ present_fields df required_fields) as Hin.
      { unfold present_fields. by apply list_elem_of_filter. }
      rewrite Hp in Hin. by apply elem_of_nil in Hin. }
    eexists. split; [done|]. split.
    + rewrite <- list_fmap_compose. apply list_fmap_id.
    + apply Forall_fmap, List.Forall_forall. intros g Hg. cbn.
      rewrite <- Hp in Hg. unfold present_fields in Hg.
      apply list_elem_of_In, list_elem_of_filter in Hg as [Hcol Hreq].
      repeat split; try done; apply non_null_count_bounds.
Qed.

(** Of the temporal fields of an event, [year] and [day] are there. *)
Lemma validate_required_fields_counts_year_day :
  ∃ entries,
    validate_required_fields
      {| index_length := 2;
         frame := [("day", [Str "1"; NaN]); ("year", [Str "2020"; Str "2021"])] |}
      ["eventDate"; "year"; "month"; "day"]
    = pd.PerColumn entries
    ∧ entries.*1 = ["year"; "day"].
Proof.
  destruct (proj2 (validate_required_fields_counts
                     {| index_length := 2;
                        frame := [("day", [Str "1"; NaN]);
                                  ("year", [Str "2020"; Str "2021"])] |}
                     ["eventDate"; "year"; "month"; "day"]))
    as (entries & Heq & Hnames & _).
  - apply Exists_cons_tl, Exists_cons_hd. compute_done.
  - exists entries. split; [exact Heq|]. rewrite Hnames. reflexivity.
Defined.

Section required_counts.
Context {runtime : Runtime}.

(** X2. The counts of [validate_required_fields] go through [int(...)] in
    [validate_event_dataframe]. With none of the required fields in the
    frame the conversion gives 0; with two or more of them it raises
    [TypeError], because the value is then a series of several counts. *)
Theorem int_of_required_counts (df : DataFrame) (required_fields : list string) :
  (present_fields df required_fields = [] →
   pd.int_of_counts (validate_required_fields df required_fields) = Ok 0)
  ∧ ((2 ≤ length (present_fields df required_fields))%nat →
     pd.int_of_counts (validate_required_fields df required_fields)
     = Raise (TypeError "cannot convert the series to int")).
Proof.
  rewrite validate_required_fields_value. split.
  - by intros ->.
  - intros Htwo.
    destruct (present_fields df required_fields) as [|f [|g present]];
      cbn in Htwo; [lia|lia|done].
Qed.

End required_counts.

(** An event frame with [eventDate] and [year]: the temporal count does not
    convert. *)
Lemma int_of_required_counts_event_date_year :
  pd.int_of_counts (runtime := whole_number_runtime)
    (validate_required_fields
       {| index_length := 1;
          frame := [("eventDate", [Str "2020-01-01"]); ("year", [Str "2020"])] |}
       ["eventDate"; "year"; "month"; "day"])
  = Raise (TypeError "cannot convert the series to int").
Proof.
  apply (proj2 (int_of_required_counts (runtime := whole_number_runtime)
                  {| index_length := 1;
                     frame := [("eventDate", [Str "2020-01-01"]);
                               ("year", [Str "2020"])] |}
                  ["eventDate"; "year"; "month"; "day"])).
  vm_compute. lia.
Defined.

(** *** [generate_coordinates_report], the counts *)

Section coordinate_counts.
Context {runtime : Runtime}.

Lemma deficit_invalid (lo hi : Z) (s : Series) :
  non_null_count s - in_range_count lo hi s
  = Z.of_nat (length (filter (invalid_coordinate lo hi) s)).
Proof.
  unfold non_null_count, in_range_count.
  induction s as [|c s IH]; [done|].
  rewrite !filter_cons.
  destruct (decide (coerces_within lo hi c)) as [Hin|Hout].
  - assert (c ≠ NaN) as Hc by (intros ->; by unfold coerces_within in Hin).
    rewrite (decide_True (P := c ≠ NaN)) by done.
    rewrite (decide_False (P := invalid_coordinate lo hi c))
      by (by intros [_ ?]).
    cbn [length]. lia.
  - destruct (decide (c ≠ NaN)) as [Hc|Hc].
    + rewrite (decide_True (P := invalid_coordinate lo hi c)) by done.
      cbn [length]. lia.
    + rewrite (decide_False (P := invalid_coordinate lo hi c))
        by (by intros [? _]).
      lia.
Qed.

(** X3. Whatever the frame, the report of [generate_coordinates_report]
    holds two counts that are not negative and that are both 0 when
    [has_coordinates_fields] is false; the warnings come back either as they
    were or with one [INVALID_OR_OUT_OF_RANGE_COORDINATES] at the end, and the
    warning is there exactly when one of the two counts is positive. *)
Theorem generate_coordinates_report_counts (dataframe : DataFrame)
    (warnings : list string) :
  let report := (generate_coordinates_report dataframe warnings).1 in
  let warnings' := (generate_coordinates_report dataframe warnings).2 in
  (has_coordinates_fields report = false →
   invalid_decimal_latitude_count report = 0
   ∧ invalid_decimal_longitude_count report = 0)
  ∧ 0 ≤ invalid_decimal_latitude_count report
  ∧ 0 ≤ invalid_decimal_longitude_count report
  ∧ (warnings' = warnings
     ∨ warnings' = warnings ++ ["INVALID_OR_OUT_OF_RANGE_COORDINATES"])
  ∧ (warnings' = warnings ++ ["INVALID_OR_OUT_OF_RANGE_COORDINATES"]
     ↔ 0 < invalid_decimal_latitude_count report
       ∨ 0 < invalid_decimal_longitude_count report).
Proof.
  unfold generate_coordinates_report.
  rewrite !between_sum_in_range, !count_non_null.
  set (lat := pd.column dataframe "decimalLatitude").
  set (lon := pd.column dataframe "decimalLongitude").
  pose proof (in_range_le_non_null (-90) 90 lat) as Hlat.
  pose proof (in_range_le_non_null (-180) 180 lon) as Hlon.
  assert (∀ l : list string, l ≠ l ++ ["INVALID_OR_OUT_OF_RANGE_COORDINATES"])
    as Hgrow.
  { intros l Heq. apply (f_equal length) in Heq.
    rewrite length_app in Heq. cbn in Heq. lia. }
  destruct (negb _ || negb _); cbn.
  { split_and!; [done|done|done|by left|].
    split; [by intros ?%Hgrow|lia]. }
  destruct (decide (in_range_count (-90) 90 lat = non_null_count lat)) as [Hla|Hla];
    destruct (decide (in_range_count (-180) 180 lon = non_null_count lon)) as [Hlo|Hlo];
    rewrite ?(bool_decide_true _ Hla), ?(bool_decide_false _ Hla),
      ?(bool_decide_true _ Hlo), ?(bool_decide_false _ Hlo); cbn.
  - split_and!; [done|done|done|by left|].
    split; [by intros ?%Hgrow|lia].
  - split_and!; [done|lia|lia|by right|]. split; [lia|done].
  - split_and!; [done|lia|lia|by right|]. split; [lia|done].
  - split_and!; [done|lia|lia|by right|]. split; [lia|done].
Qed.

(** X4. When the frame has both coordinate columns, each count of the
    report is the number of cells of its column that are populated and do not
    coerce to a number within the inclusive range of the axis. *)
Theorem generate_coordinates_report_invalid_cells (dataframe : DataFrame)
    (warnings : list string) :
  "decimalLatitude" ∈ pd.columns dataframe →
  "decimalLongitude" ∈ pd.columns dataframe →
  let report := (generate_coordinates_report dataframe warnings).1 in
  has_coordinates_fields report = true
  ∧ invalid_decimal_latitude_count report
    = Z.of_nat (length (filter (invalid_coordinate (-90) 90)
                          (pd.column dataframe "decimalLatitude")))
  ∧ invalid_decimal_longitude_count report
    = Z.of_nat (length (filter (invalid_coordinate (-180) 180)
                          (pd.column dataframe "decimalLongitude"))).
Proof.
  intros Hlat Hlon. unfold generate_coordinates_report, pd.has_column.
  rewrite (bool_decide_true _ Hlat), (bool_decide_true _ Hlon). cbn [negb orb].
  rewrite !between_sum_in_range, !count_non_null, <- !deficit_invalid.
  destruct (bool_decide _ && bool_decide _) eqn:Hvalid; cbn; [|done].
  apply andb_true_iff in Hvalid as [Hla Hlo].
  apply bool_decide_eq_true in Hla, Hlo. split; [done|]. lia.
Qed.

End coordinate_counts.

(** Scenario 1 has one invalid cell on each axis. *)
Lemma generate_coordinates_report_invalid_cells_scenario_1 :
  let report :=
    (generate_coordinates_report (runtime := whole_number_runtime)
       scenario_1 []).1 in
  invalid_decimal_latitude_count report = 1
  ∧ invalid_decimal_longitude_count report = 1.
Proof.
  destruct (generate_coordinates_report_invalid_cells
              (runtime := whole_number_runtime) scenario_1 [])
    as (_ & Hlat & Hlon); [compute_done|compute_done|].
  split; [rewrite Hlat|rewrite Hlon]; vm_compute; reflexivity.
Defined.

(** *** [check_id_fields], what a call can give *)

Lemma remove_dups_length_le (l : Series) :
  (length (remove_dups l) ≤ length l)%nat.
Proof.
  induction l as [|c l IH]; [done|].
  cbn. destruct (decide_rel elem_of c l); cbn; lia.
Qed.

Lemma dropna_populated (s : Series) :
  Forall (λ c, c ≠ NaN) s → pd.dropna s = s.
Proof.
  unfold pd.dropna. induction 1 as [|c s Hc _ IH]; [done|].
  cbn. rewrite IH. by destruct c.
Qed.

Lemma isna_sum_positive (s : Series) :
  pd.all (pd.notnull <$> s) = false → 0 < pd.sum (pd.isna <$> s).
Proof.
  unfold pd.all. induction s as [|c s IH]; [done|].
  rewrite !fmap_cons, sum_cons. cbn [forallb].
  pose proof (sum_nonneg (pd.isna <$> s)).
  destruct c; cbn; [lia|intros ?%IH; lia..].
Qed.

Lemma column_length (df : DataFrame) (f : string) :
  well_formed df → f ∈ pd.columns df →
  length (pd.column df f) = index_length df.
Proof.
  unfold well_formed, pd.column, pd.columns.
  generalize (index_length df) as n. induction (frame df) as [|[g s] cols IH];
    intros n Hwf Hf; [by apply elem_of_nil in Hf|].
  apply Forall_cons_1 in Hwf as [Hs Hwf]. cbn.
  destruct (decide (g = f)) as [->|Hne].
  - by rewrite bool_decide_true.
  - rewrite bool_decide_false by done. apply IH; [done|].
    rewrite fmap_cons in Hf. apply elem_of_cons in Hf as [Heq|Hf]; [|done].
    by destruct Hne.
Qed.

Lemma check_id_candidates_outcome n id_term df fields errors m errors' :
  check_id_candidates n id_term df fields errors = Ok (m, errors') →
  (errors' = errors ∧ m = 0)
  ∨ (errors' = errors ++ ["MISSING_ID_FIELD"] ∧ m = pd.len df)
  ∨ (errors' = errors ++ ["MISSING_ID_FIELD_VALUES"] ∧ 0 < m)
  ∨ (errors' = errors ++ ["DUPLICATE_ID_FIELD_VALUES"] ∧ n = 1%nat ∧ 0 ≤ m
     ∧ (well_formed df → 0 < m)).
Proof.
  induction fields as [|f fields IH].
  { intros [= <- <-]. by left. }
  rewrite check_id_candidates_step. cbn zeta.
  set (col := resolved_column id_term f).
  case_bool_decide as Hcol.
  - destruct (pd.all _) eqn:Hall.
    + case_bool_decide as Hn; [|done]. case_bool_decide as Huniq; [done|].
      intros [= <- <-]. do 3 right. rewrite duplicated_sum.
      unfold duplicate_rows.
      pose proof (remove_dups_length_le (pd.column df col)).
      split; [done|]. split; [done|]. split; [lia|].
      intros Hwf. apply all_notnull_iff in Hall.
      unfold pd.nunique, pd.len in Huniq.
      rewrite dropna_populated, <- (column_length df col) in Huniq by done.
      assert (length (remove_dups (pd.column df col))
              ≠ length (pd.column df col)) by congruence.
      lia.
    + intros [= <- <-]. right. right. left. split; [done|].
      by apply isna_sum_positive.
  - case_bool_decide; [done|]. intros [= <- <-]. right. by left.
Qed.

(** X5. What a call of [check_id_fields] that returns can give. Either
    nothing is appended and the count is 0; or one code is appended at the
    end of [errors]: [MISSING_ID_FIELD] with the row count,
    [MISSING_ID_FIELD_VALUES] with a positive count, or
    [DUPLICATE_ID_FIELD_VALUES], which only a call with a single candidate
    gives, with a count that is positive when the columns of the frame have
    the length of its index. With two or more candidates repeated values are
    never reported. *)
Theorem check_id_fields_outcome (id_fields : option (list string))
    (id_term : string) (df : DataFrame) (errors errors' : list string) (n : Z) :
  check_id_fields id_fields id_term df errors = Ok (n, errors') →
  (errors' = errors ∧ n = 0)
  ∨ (errors' = errors ++ ["MISSING_ID_FIELD"] ∧ n = pd.len df)
  ∨ (errors' = errors ++ ["MISSING_ID_FIELD_VALUES"] ∧ 0 < n)
  ∨ (errors' = errors ++ ["DUPLICATE_ID_FIELD_VALUES"]
     ∧ (∃ f, id_fields = Some [f]) ∧ 0 ≤ n ∧ (well_formed df → 0 < n)).
Proof.
  destruct id_fields as [fields|]; [|intros [= <- <-]; by left].
  rewrite check_id_fields_candidates. intros Hcall.
  destruct (check_id_candidates_outcome _ _ _ _ _ _ _ Hcall)
    as [?|[?|[?|(? & Hone & ? & ?)]]]; [by left|by right; left|by do 2 right; left|].
  do 3 right. repeat split; try done.
  destruct fields as [|f [|g fields]]; [done|by exists f|done].
Qed.

(** Three identifiers, two of them the same: the code that is appended
    comes from a call with one candidate. *)
Lemma check_id_fields_outcome_one_duplicate :
  ∃ f, Some ["occurrenceID"] = Some [f].
Proof.
  destruct (check_id_fields_outcome (Some ["occurrenceID"]) ""
              {| index_length := 3;
                 frame := [("occurrenceID", [Str "a"; Str "b"; Str "a"])] |}
              [] ["DUPLICATE_ID_FIELD_VALUES"] 1)
    as [[Habs _]|[[Habs _]|[[Habs _]|(_ & Hone & _)]]];
    [vm_compute; reflexivity|discriminate Habs..|exact Hone].
Defined.

(** *** [create_vocabulary_report], the counts and the sample *)

Lemma string_leb_trans (a b c : string) :
  String.leb a b = true → String.leb b c = true → String.leb a c = true.
Proof.
  unfold String.leb. revert b c.
  induction a as [|x a IH]; intros [|y b] [|z c]; cbn; try done.
  unfold Ascii.compare.
  destruct (N.compare_spec (N_of_ascii x) (N_of_ascii y)) as [Hxy|Hxy|Hxy],
    (N.compare_spec (N_of_ascii y) (N_of_ascii z)) as [Hyz|Hyz|Hyz]; try done.
  - rewrite Hxy, Hyz, N.compare_refl. apply IH.
  - rewrite Hxy. by apply N.compare_lt_iff in Hyz as ->.
  - rewrite <- Hyz. by apply N.compare_lt_iff in Hxy as ->.
  - assert (N_of_ascii x < N_of_ascii z)%N as Hxz by lia.
    by apply N.compare_lt_iff in Hxz as ->.
Qed.

Lemma insert_sorted_ascending (s : string) (l : list string) :
  ascending l → ascending (pd.insert_sorted s l).
Proof.
  unfold ascending. induction 1 as [|t r Hr IH Ht].
  { by repeat constructor. }
  cbn. destruct (String.leb s t) eqn:Hst.
  - constructor; [by constructor|]. constructor; [done|].
    eapply List.Forall_impl; [|exact Ht]. intros u Hu. cbn in Hu.
    by eapply string_leb_trans.
  - constructor; [done|]. rewrite insert_sorted_perm. constructor; [|done].
    by destruct (String.leb_total s t) as [Hle|Hle]; [congruence|].
Qed.

Lemma unique_ascending (l : list string) : ascending (pd.unique l).
Proof.
  unfold pd.unique. induction (remove_dups l) as [|s r IH]; [constructor|].
  cbn. by apply insert_sorted_ascending.
Qed.

Lemma take_ascending (n : nat) (l : list string) :
  ascending l → ascending (take n l).
Proof.
  unfold ascending. rewrite <- (take_drop n l) at 1.
  apply StronglySorted_app_1_l.
Qed.

Lemma list_remove_first_ascending (x : string) (l : list string) :
  ascending l → ascending (list_remove_first x l).
Proof.
  unfold ascending. induction 1 as [|y r Hr IH Hy]; [constructor|].
  cbn. case_bool_decide; [done|]. constructor; [done|].
  apply List.Forall_forall. intros u Hu. apply list_elem_of_In in Hu.
  pose proof (elem_of_sublist _ _ _ Hu (list_remove_first_sublist x r)) as Hin.
  apply list_elem_of_In in Hin. by eapply List.Forall_forall in Hy.
Qed.

Section vocabulary_more.
Context {runtime : Runtime}.

Lemma rows_partition (vocabulary : list string) (s : Series) :
  Z.of_nat (length s)
  = unpopulated_rows s + recognised_rows vocabulary s
    + Z.of_nat (length (filter (unrecognised vocabulary) s)).
Proof.
  unfold unpopulated_rows, recognised_rows.
  induction s as [|c s IH]; [done|].
  rewrite !filter_cons. cbn [length].
  destruct (decide (c = NaN)) as [->|Hc].
  - rewrite (decide_False (P := recognised vocabulary NaN)) by (by intros []).
    rewrite (decide_False (P := unrecognised vocabulary NaN)) by (by intros [? _]).
    cbn [length]. lia.
  - destruct (decide (recognised vocabulary c)) as [Hr|Hr].
    + rewrite (decide_False (P := unrecognised vocabulary c)) by (by intros [_ ?]).
      cbn [length]. lia.
    + rewrite (decide_True (P := unrecognised vocabulary c)) by done.
      cbn [length]. lia.
Qed.

(** [isin] asks only which strings the collection holds. *)
Lemma isin_ext (a b : list string) (s : Series) :
  (∀ w, w ∈ a ↔ w ∈ b) → pd.isin a s = pd.isin b s.
Proof.
  intros Hsame. unfold pd.isin. apply list_fmap_ext. intros _ c _.
  destruct c; [done| |done]. apply bool_decide_ext, Hsame.
Qed.

Lemma non_matching_sample_ascending (df : DataFrame) (f : string)
    (vocabulary_lower sample : list string) :
  non_matching_sample df f vocabulary_lower = Ok sample →
  ascending sample ∧ NoDup sample ∧ (length sample ≤ 10)%nat ∧ "nan" ∉ sample.
Proof.
  unfold non_matching_sample. destruct (pd.str_lower _) as [lowered| |]; [|done..].
  cbn. set (first_ten := take 10 _).
  assert (ascending first_ten) as Hasc.
  { apply take_ascending, unique_ascending. }
  assert (NoDup first_ten) as Hnodup.
  { eapply sublist_NoDup; [apply unique_NoDup|apply sublist_take]. }
  assert ((length first_ten ≤ 10)%nat) as Hlen.
  { unfold first_ten. rewrite length_take. lia. }
  intros [= <-]. case_bool_decide as Hnan; [|done].
  pose proof (list_remove_first_sublist "nan" first_ten) as Hsub.
  split_and!.
  - by apply list_remove_first_ascending.
  - by eapply sublist_NoDup.
  - apply sublist_length in Hsub. lia.
  - by apply list_remove_first_gone.
Qed.

(** X7. Whenever [create_vocabulary_report] returns, the sample of
    non-matching values is in ascending order of the strings, holds no value
    twice, has at most ten values, and ["nan"] is not among them. *)
Theorem create_vocabulary_report_sample (df : DataFrame) (f : string)
    (vocabulary : list string) (report : VocabularyReport) :
  create_vocabulary_report df f vocabulary = Ok report →
  ascending (non_matching_values report)
  ∧ NoDup (non_matching_values report)
  ∧ (length (non_matching_values report) ≤ 10)%nat
  ∧ "nan" ∉ non_matching_values report.
Proof.
  assert (ascending [] ∧ NoDup (@nil string) ∧ (length (@nil string) ≤ 10)%nat
          ∧ "nan" ∉ @nil string) as Hnil.
  { split_and!; [constructor|constructor|cbn; lia|apply not_elem_of_nil]. }
  unfold create_vocabulary_report.
  destruct (negb _); [by intros [= <-]|].
  case_bool_decide; [|by intros [= <-]].
  destruct (pd.str_lower (pd.dropna _)) as [lowered| |]; [|done..]. cbn.
  destruct (non_matching_sample df f (lower <$> vocabulary))
    as [sample| |] eqn:Hsample; cbn; [|by intros [= <-]|done].
  intros [= <-]. cbn. by eapply non_matching_sample_ascending.
Qed.

(** X8. For the report the vocabulary counts only as the set of the
    lower-case forms of its words: two vocabularies whose words have the same
    lower-case forms, in whatever order and however often, give the same
    result, report or exception. *)
Theorem create_vocabulary_report_vocabulary_set (df : DataFrame) (f : string)
    (vocabulary vocabulary' : list string) :
  (∀ w, w ∈ lower <$> vocabulary ↔ w ∈ lower <$> vocabulary') →
  create_vocabulary_report df f vocabulary
  = create_vocabulary_report df f vocabulary'.
Proof.
  intros Hsame. unfold create_vocabulary_report.
  destruct (negb (pd.has_column df f)); [done|].
  case_bool_decide; [|done].
  destruct (pd.str_lower (pd.dropna _)) as [lowered| |]; [|done..].
  cbn [mbind outcome_bind].
  rewrite (isin_ext _ _ lowered Hsame).
  assert (non_matching_sample df f (lower <$> vocabulary)
          = non_matching_sample df f (lower <$> vocabulary')) as ->; [|done].
  unfold non_matching_sample.
  destruct (pd.str_lower (pd.column df f)) as [all_lowered| |]; [|done..].
  cbn [mbind outcome_bind]. by rewrite (isin_ext _ _ all_lowered Hsame).
Qed.

(** X9. When the column is as long as the index and the call returns,
    [unrecognised_count] is the number of populated cells of the column that
    the vocabulary does not recognise, a number or a string outside it; a
    missing cell is counted neither as recognised nor as unrecognised. *)
Theorem create_vocabulary_report_unrecognised (df : DataFrame) (f : string)
    (vocabulary : list string) (report : VocabularyReport) :
  f ∈ pd.columns df →
  length (pd.column df f) = index_length df →
  create_vocabulary_report df f vocabulary = Ok report →
  recognised_count report = recognised_rows vocabulary (pd.column df f)
  ∧ unrecognised_count report
    = Z.of_nat (length (filter (unrecognised vocabulary) (pd.column df f))).
Proof.
  intros Hf Hlen. unfold create_vocabulary_report, pd.has_column, pd.len.
  rewrite (bool_decide_true _ Hf). cbn [negb].
  rewrite isna_sum_unpopulated, <- Hlen.
  pose proof (rows_partition vocabulary (pd.column df f)) as Hrows.
  case_bool_decide as Hpop.
  - destruct (pd.str_lower (pd.dropna _)) as [lowered| |] eqn:Hlow; [|done..].
    unfold pd.str_lower in Hlow.
    destruct (pd.str_accessor_ok _); [|done]. injection Hlow as <-. cbn.
    rewrite isin_lower, sum_recognised.
    destruct (try_except _ _) as [sample| |]; [|done..]. cbn.
    intros [= <-]. cbn. split; [done|lia].
  - cbn. intros [= <-]. cbn.
    assert (recognised_rows vocabulary (pd.column df f) = 0) as Hzero.
    { rewrite <- sum_recognised.
      destruct (pd.dropna (pd.column df f)); [done|]. cbn in Hpop. lia. }
    split; [done|lia].
Qed.

End vocabulary_more.

(** Scenario 3 returns, with a sample in order. *)
Lemma create_vocabulary_report_sample_scenario_3 :
  ascending ["Bogus"] ∧ NoDup ["Bogus"] ∧ (length ["Bogus"] ≤ 10)%nat
  ∧ "nan" ∉ ["Bogus"].
Proof.
  apply (create_vocabulary_report_sample (runtime := whole_number_runtime)
           scenario_3 "basisOfRecord" ["Observation"; "PreservedSpecimen"]
           (Build_VocabularyReport "basisOfRecord" true 2 1 ["Bogus"])).
  vm_compute. reflexivity.
Defined.

(** Scenario 3 has one unrecognised cell, ["Bogus"]. *)
Lemma create_vocabulary_report_unrecognised_scenario_3 :
  2 = recognised_rows (runtime := whole_number_runtime)
        ["Observation"; "PreservedSpecimen"]
        (pd.column scenario_3 "basisOfRecord")
  ∧ 1 = Z.of_nat (length (filter (unrecognised (runtime := whole_number_runtime)
                                    ["Observation"; "PreservedSpecimen"])
                            (pd.column scenario_3 "basisOfRecord"))).
Proof.
  apply (create_vocabulary_report_unrecognised (runtime := whole_number_runtime)
           scenario_3 "basisOfRecord" ["Observation"; "PreservedSpecimen"]
           (Build_VocabularyReport "basisOfRecord" true 2 1 ["Bogus"]));
    [compute_done|reflexivity|vm_compute; reflexivity].
Defined.

(** Scenario 3 is a column the [.str] accessor accepts. *)
Lemma create_vocabulary_report_text_column_scenario_3 :
  ∃ report,
    create_vocabulary_report (runtime := whole_number_runtime) scenario_3
      "basisOfRecord" ["Observation"; "PreservedSpecimen"]
    = Ok report
    ∧ recognised_count report + unrecognised_count report
      + unpopulated_rows (pd.column scenario_3 "basisOfRecord")
      = pd.len scenario_3.
Proof.
  destruct (create_vocabulary_report_text_column
              (runtime := whole_number_runtime) scenario_3 "basisOfRecord"
              ["Observation"; "PreservedSpecimen"])
    as (report & Hcall & _ & _ & _ & _ & Hsum & _);
    [compute_done|reflexivity|].
  by exists report.
Defined.

(** The vocabulary of scenario 3 in another order, in other case and with
    a word twice. *)
Lemma create_vocabulary_report_vocabulary_set_scenario_3 :
  create_vocabulary_report (runtime := whole_number_runtime) scenario_3
    "basisOfRecord" ["Observation"; "PreservedSpecimen"]
  = create_vocabulary_report (runtime := whole_number_runtime) scenario_3
      "basisOfRecord" ["PRESERVEDSPECIMEN"; "observation"; "OBSERVATION"].
Proof.
  apply (create_vocabulary_report_vocabulary_set
           (runtime := whole_number_runtime)).
  intros w. vm_compute (lower <$> _). rewrite !elem_of_cons, !elem_of_nil.
  tauto.
Defined.

(** *** The required columns of an occurrence frame *)

Lemma existsb_Exists {A} (P : A → Prop) `{!∀ x, Decision (P x)} (l : list A) :
  existsb (λ x, bool_decide (P x)) l = true ↔ Exists P l.
Proof.
  induction l as [|x l IH]; cbn.
  - split; [done|]. by intros ?%Exists_nil.
  - rewrite orb_true_iff, bool_decide_eq_true, IH, Exists_cons. done.
Qed.

Lemma issuperset_Forall (a b : list string) :
  issuperset a b = true ↔ Forall (λ x, x ∈ a) b.
Proof.
  unfold issuperset. induction b as [|x b IH]; cbn.
  - split; [by constructor|done].
  - rewrite andb_true_iff, bool_decide_eq_true, IH. split.
    + intros [? ?]. by constructor.
    + intros [? ?]%Forall_cons_1. done.
Qed.

Lemma returns_bind_left {A B} (m : outcome A) (f : A → outcome B) :
  returns m = false → returns (m ≫= f) = false.
Proof. by destruct m. Qed.

Section required_columns_more.
Context {runtime : Runtime} {vocab : Vocab} {service : NameMatching}.

Lemma elem_of_list_of_set (x : string) (l : list string) :
  x ∈ list_of_set l ↔ x ∈ l.
Proof. by rewrite list_of_set_perm, elem_of_remove_dups. Qed.

(** X10. The spatial step of [validate_occurrence_dataframe]. When the
    frame has some but not all of the spatial columns, the step throws away
    the list it is given, so also the taxonomy columns listed before it, and
    gives the spatial columns the frame lacks, each once. When the frame has
    all of them, the list passes through unchanged. *)
Theorem check_spatial_columns_partial (dataframe : DataFrame)
    (missing_columns : list string) :
  Exists (λ c, c ∈ required_columns_spatial_vocab) (pd.columns dataframe) →
  (¬ Forall (λ c, c ∈ pd.columns dataframe) required_columns_spatial_vocab →
   check_spatial_columns dataframe missing_columns
   ≡ₚ remove_dups (list_difference required_columns_spatial_vocab
                     (pd.columns dataframe))
   ∧ (∀ c, c ∈ check_spatial_columns dataframe missing_columns
           ↔ c ∈ required_columns_spatial_vocab ∧ c ∉ pd.columns dataframe))
  ∧ (Forall (λ c, c ∈ pd.columns dataframe) required_columns_spatial_vocab →
     check_spatial_columns dataframe missing_columns = missing_columns).
Proof.
  intros Hsome. unfold check_spatial_columns.
  rewrite (proj2 (existsb_Exists _ _) Hsome). split.
  - intros Hnot.
    rewrite (proj1 (not_true_iff_false _)
               (λ H, Hnot (proj1 (issuperset_Forall _ _) H))).
    cbn [negb]. split; [apply list_of_set_perm|].
    intros c. by rewrite elem_of_list_of_set, list_elem_of_difference.
  - intros Hall. by rewrite (proj2 (issuperset_Forall _ _) Hall).
Qed.

(** X11. The taxonomy step of [validate_occurrence_dataframe]. A frame
    without any taxonomy column passes with the list unchanged and no report.
    A frame with some but not all of them gets the lacking ones listed, each
    once, and no report; the name service is not asked. A frame with all of
    them, [scientificName] among them, does not get past the step: the call
    of [create_taxonomy_report] never returns. *)
Theorem check_taxonomy_columns_cases (dataframe : DataFrame)
    (missing_columns : list string) :
  (Forall (λ c, c ∉ required_taxonomy_columns) (pd.columns dataframe) →
   check_taxonomy_columns dataframe missing_columns = Ok (missing_columns, VNone))
  ∧ (Exists (λ c, c ∈ required_taxonomy_columns) (pd.columns dataframe) →
     (¬ Forall (λ c, c ∈ pd.columns dataframe) required_taxonomy_columns →
      ∃ listed,
        check_taxonomy_columns dataframe missing_columns = Ok (listed, VNone)
        ∧ listed ≡ₚ remove_dups (list_difference required_taxonomy_columns
                                   (pd.columns dataframe)))
     ∧ (Forall (λ c, c ∈ pd.columns dataframe) required_taxonomy_columns →
        "scientificName" ∈ pd.columns dataframe →
        returns (check_taxonomy_columns dataframe missing_columns) = false)).
Proof.
  unfold check_taxonomy_columns. split.
  - intros Hnone.
    assert (existsb (λ v, bool_decide (v ∈ required_taxonomy_columns))
              (pd.columns dataframe) = false) as ->; [|done].
    apply not_true_iff_false. intros Hex%existsb_Exists.
    apply List.Exists_exists in Hex as (c & Hc & Hin).
    by eapply List.Forall_forall in Hnone.
  - intros Hsome. rewrite (proj2 (existsb_Exists _ _) Hsome). split.
    + intros Hnot.
      rewrite (proj1 (not_true_iff_false _)
                 (λ H, Hnot (proj1 (issuperset_Forall _ _) H))).
      cbn [negb]. eexists. split; [done|apply list_of_set_perm].
    + intros Hall Hname. rewrite (proj2 (issuperset_Forall _ _) Hall).
      cbn [negb]. rewrite (bool_decide_true _ Hname).
      apply returns_bind_left. unfold create_taxonomy_report.
      rewrite (bool_decide_true _ Hname). cbn [negb].
      do 2 (apply returns_bind; intros ?).
      by rewrite TaxonReport_taxonomy_call.
Qed.

(** X12. [all_required_columns_present] after the identifier step: it is
    set exactly when the list that reaches the step is empty and the frame
    has one of [occurrenceID], [catalogNumber] and [recordNumber]. *)
Theorem all_columns_present_after_identifier (dataframe : DataFrame)
    (missing_columns : list string) :
  all_columns_present (check_any_identifier dataframe missing_columns) = true
  ↔ missing_columns = []
    ∧ ("occurrenceID" ∈ pd.columns dataframe
       ∨ "catalogNumber" ∈ pd.columns dataframe
       ∨ "recordNumber" ∈ pd.columns dataframe).
Proof.
  rewrite all_columns_present_iff. unfold check_any_identifier, issuperset.
  cbn [existsb forallb]. rewrite !andb_true_r, orb_false_r.
  destruct (decide ("occurrenceID" ∈ pd.columns dataframe)) as [H1|H1];
    destruct (decide ("catalogNumber" ∈ pd.columns dataframe)) as [H2|H2];
    destruct (decide ("recordNumber" ∈ pd.columns dataframe)) as [H3|H3];
    rewrite ?(bool_decide_true _ H1), ?(bool_decide_false _ H1),
      ?(bool_decide_true _ H2), ?(bool_decide_false _ H2),
      ?(bool_decide_true _ H3), ?(bool_decide_false _ H3); cbn;
    try (split; [intros ->; split; [done|tauto]|by intros [-> _]]).
  split; [by intros ?%app_nil_r_inv|tauto].
Qed.

End required_columns_more.

(** A frame with the latitude only: the taxonomy column listed before the
    spatial step is gone after it. *)
Lemma check_spatial_columns_partial_latitude_only :
  ("vernacularName"
   ∉ check_spatial_columns (runtime := whole_number_runtime)
       (vocab := sample_vocab)
       {| index_length := 1; frame := [("decimalLatitude", [Str "10"])] |}
       ["vernacularName"])
  ∧ ("decimalLongitude"
     ∈ check_spatial_columns (runtime := whole_number_runtime)
         (vocab := sample_vocab)
         {| index_length := 1; frame := [("decimalLatitude", [Str "10"])] |}
         ["vernacularName"]).
Proof.
  destruct (proj1 (check_spatial_columns_partial
                     (runtime := whole_number_runtime) (vocab := sample_vocab)
                     {| index_length := 1;
                        frame := [("decimalLatitude", [Str "10"])] |}
                     ["vernacularName"] ltac:(compute_done))
              ltac:(compute_done)) as [_ Hlisted].
  split.
  - intros [Hin _]%Hlisted. revert Hin. compute_done.
  - apply Hlisted. compute_done.
Defined.

(** A frame with [scientificName] only: the two other taxonomy columns of
    the sample are listed. *)
Lemma check_taxonomy_columns_cases_name_only :
  ∃ listed,
    check_taxonomy_columns (runtime := whole_number_runtime)
      (vocab := sample_vocab) (service := known_names [])
      {| index_length := 1; frame := [("scientificName", [Str "Acacia"])] |} []
    = Ok (listed, VNone)
    ∧ listed ≡ₚ ["vernacularName"; "genus"].
Proof.
  apply (proj1 (proj2 (check_taxonomy_columns_cases
                         (runtime := whole_number_runtime)
                         (vocab := sample_vocab) (service := known_names [])
                         {| index_length := 1;
                            frame := [("scientificName", [Str "Acacia"])] |} [])
                  ltac:(compute_done))).
  compute_done.
Defined.

(** *** [create_datetime_report] *)

Section datetime.
Context {runtime : Runtime} {vocab : Vocab} {service : NameMatching}.

(** X13. [create_datetime_report] returns only for a frame without an
    [eventDate] column. With the column it never returns, and when the column
    has a first row it ends the process; [validate_occurrence_dataframe]
    therefore ends the process for every such frame on which the identifier
    check and the taxonomy step return. *)
Theorem create_datetime_report_ends_process (dataframe : DataFrame) :
  ("eventDate" ∉ pd.columns dataframe →
   returns (create_datetime_report dataframe) = true)
  ∧ ("eventDate" ∈ pd.columns dataframe →
     returns (create_datetime_report dataframe) = false
     ∧ (pd.column dataframe "eventDate" ≠ [] →
        create_datetime_report dataframe = SysExit
        ∧ ∀ id_fields id_term checked listed,
            check_id_fields id_fields id_term dataframe [] = Ok checked →
            check_taxonomy_columns dataframe [] = Ok listed →
            validate_occurrence_dataframe dataframe id_fields id_term = SysExit)).
Proof.
  unfold create_datetime_report, pd.has_column. split.
  - intros Hno. by rewrite (bool_decide_false _ Hno).
  - intros Hdate. rewrite (bool_decide_true _ Hdate), getitem_present by done.
    cbn. split; [by destruct (pd.column dataframe "eventDate")|].
    intros Hrows.
    assert (create_datetime_report dataframe = SysExit) as Hexit.
    { unfold create_datetime_report, pd.has_column.
      rewrite (bool_decide_true _ Hdate), getitem_present by done.
      cbn. by destruct (pd.column dataframe "eventDate"). }
    split; [by destruct (pd.column dataframe "eventDate")|].
    intros id_fields id_term [n errors] [missing report] Hid Htax.
    unfold validate_occurrence_dataframe. rewrite Hid. cbn. rewrite Htax. cbn.
    destruct (generate_coordinates_report _ _). by rewrite Hexit.
Qed.

End datetime.

(** An occurrence frame with an event date. *)
Lemma create_datetime_report_ends_process_one_date :
  validate_occurrence_dataframe (runtime := whole_number_runtime)
    (vocab := sample_vocab) (service := known_names [])
    {| index_length := 1;
       frame := [("occurrenceID", [Str "occ-1"]);
                 ("eventDate", [Str "2020-01-01"])] |}
    (Some ["occurrenceID"]) ""
  = SysExit.
Proof.
  destruct (proj2 (create_datetime_report_ends_process
                     (runtime := whole_number_runtime) (vocab := sample_vocab)
                     (service := known_names [])
                     {| index_length := 1;
                        frame := [("occurrenceID", [Str "occ-1"]);
                                  ("eventDate", [Str "2020-01-01"])] |})
             ltac:(compute_done)) as [_ Hrows].
  destruct Hrows as [_ Hcall]; [discriminate|].
  apply (Hcall (Some ["occurrenceID"]) "" (0, []) ([], VNone));
    vm_compute; reflexivity.
Defined.

(** *** The loop over the names *)

Ltac step_outcome E :=
  match goal with
  | |- context [mbind _ ?m] =>
      destruct m eqn:E; cbn [mbind outcome_bind]; [|done..]
  end.

Section names_loop.
Context {runtime : Runtime} {vocab : Vocab} {service : NameMatching}.

Lemma dict_append_flag k v st st' :
  dict_append k v st = Ok st' → has_invalid_taxa st' = has_invalid_taxa st.
Proof.
  unfold dict_append. destruct (_ !! k); [|done]. by intros [= <-].
Qed.

Lemma append_match_flag item proposed rank st st' :
  append_match item proposed rank st = Ok st' →
  has_invalid_taxa st' = has_invalid_taxa st.
Proof.
  unfold append_match. step_outcome E1. step_outcome E2. intros E3.
  apply dict_append_flag in E1, E2, E3. congruence.
Qed.

Lemma append_classification_flag cl ts st st' :
  append_classification cl ts st = Ok st' →
  has_invalid_taxa st' = has_invalid_taxa st.
Proof.
  revert st. induction ts as [|t ts IH]; intros st; [by intros [= <-]|].
  cbn [append_classification]. step_outcome E1. intros E2%IH.
  apply dict_append_flag in E1. by rewrite E2, E1.
Qed.

Lemma append_synonym_classification_flag cl ts st st' :
  append_synonym_classification cl ts st = Ok st' →
  has_invalid_taxa st' = has_invalid_taxa st.
Proof.
  revert st. induction ts as [|t ts IH]; intros st; cbn.
  - destruct (term st); [apply dict_append_flag|done].
  - destruct (cl !! t).
    + step_outcome E1. intros E2%IH. apply dict_append_flag in E1.
      by rewrite E2, E1.
    + cbn. by intros E2%IH.
Qed.

Lemma check_synonyms_flag item synonyms st st' :
  check_synonyms item synonyms st = Ok st' →
  has_invalid_taxa st' = has_invalid_taxa st.
Proof.
  revert st. induction synonyms as [|synonym synonyms IH]; intros st;
    [by intros [= <-]|].
  cbn [check_synonyms]. destruct (synonym_rank synonym).
  - step_outcome E1. revert E1. step_outcome E2. intros E3 E4%IH.
    apply append_match_flag in E2.
    apply append_synonym_classification_flag in E3. congruence.
  - cbn. apply IH.
Qed.

(** A name the batch answer holds leaves the state of the loop as it is. *)
Lemma check_name_matched n b response_json item st :
  matched response_json item →
  check_name n b response_json item st = Ok st.
Proof.
  intros Hm. unfold check_name.
  destruct (list_find _ response_json) as [found|] eqn:Hfind; [done|].
  apply list_find_None in Hfind. unfold matched in Hm.
  by apply Forall_Exists_neg in Hfind.
Qed.

Lemma check_name_unmatched_flag n b response_json item st st' :
  ¬ matched response_json item →
  check_name n b response_json item st = Ok st' →
  has_invalid_taxa st' = true.
Proof.
  intros Hm. unfold check_name.
  destruct (list_find _ response_json) as [[i d]|] eqn:Hfind.
  { apply list_find_Some in Hfind as (Hi & Hd & _). destruct Hm.
    apply Exists_exists. exists d. split; [|done].
    by eapply list_elem_of_lookup_2. }
  destruct item as [|item|]; [done| |done].
  destruct (autocomplete _ _ _) as [|first more].
  - destruct (success _); [|done].
    step_outcome E1. step_outcome E2. step_outcome E3.
    intros E4%append_classification_flag. apply append_match_flag in E3.
    by rewrite E4, E3.
  - destruct (suggestion_rank first).
    + step_outcome E1. intros E2%append_classification_flag.
      apply append_match_flag in E1. by rewrite E2, E1.
    + destruct (suggestion_synonymMatch first); [|done].
      by intros ->%check_synonyms_flag.
Qed.

(** X14. When the loop over the names returns, [has_invalid_taxa] is what
    it was before the loop or has been set by a name that the batch answer
    does not hold: it ends up true exactly when it was true before or some
    name is unmatched. If the batch answer holds every name, the state of the
    loop, flag and dictionary, is left as it was. *)
Theorem check_names_flag (num_matches : Z) (include_synonyms : bool)
    (response_json : list classification_match) (names : list cell)
    (st st' : taxonomy_state) :
  check_names num_matches include_synonyms response_json names st = Ok st' →
  has_invalid_taxa st'
  = has_invalid_taxa st
    || bool_decide (Exists (λ item, ¬ matched response_json item) names)
  ∧ (Forall (matched response_json) names → st' = st).
Proof.
  revert st. induction names as [|item names IH]; intros st.
  { intros [= <-]. split; [|done].
    rewrite bool_decide_false by (by intros ?%Exists_nil).
    by rewrite orb_false_r. }
  cbn [check_names]. step_outcome Hstep. intros [Hflag Hsame]%IH.
  destruct (decide (matched response_json item)) as [Hm|Hm].
  - rewrite check_name_matched in Hstep by done. injection Hstep as <-.
    split.
    + rewrite Hflag. f_equal. apply bool_decide_ext.
      rewrite Exists_cons. tauto.
    + intros [_ Hall]%Forall_cons_1. by apply Hsame.
  - apply check_name_unmatched_flag in Hstep; [|done]. split.
    + rewrite Hflag, Hstep. cbn.
      rewrite (bool_decide_true (Exists _ (item :: names)))
        by (by apply Exists_cons_hd).
      by rewrite orb_true_r.
    + by intros [? _]%Forall_cons_1.
Qed.

(** X15. A missing value among the names is never held by the batch
    answer, and the code calls [split] on it: once the names before it are
    through, here because the batch answer holds them, the loop raises
    [AttributeError], and so does [create_taxonomy_report] on a frame whose
    names come in that order. *)
Theorem missing_name_raises (num_matches : Z) (include_synonyms : bool)
    (before after : list cell) :
  (∀ response_json st,
     Forall (matched response_json) before →
     check_names num_matches include_synonyms response_json
       (before ++ NaN :: after) st
     = Raise (AttributeError "split"))
  ∧ (∀ dataframe,
       "scientificName" ∈ pd.columns dataframe →
       list_of_cell_set (pd.column dataframe "scientificName")
       = before ++ NaN :: after →
       Forall (matched (searchAllByClassification (before ++ NaN :: after)))
         before →
       create_taxonomy_report dataframe num_matches include_synonyms
       = Raise (AttributeError "split")).
Proof.
  assert (∀ response_json st,
            Forall (matched response_json) before →
            check_names num_matches include_synonyms response_json
              (before ++ NaN :: after) st
            = Raise (AttributeError "split")) as Hloop.
  { intros response_json st Hbefore. rewrite check_names_app.
    assert (check_names num_matches include_synonyms response_json before st
            = Ok st) as ->.
    { clear after. induction Hbefore as [|item before Hm _ IH]; [done|].
      cbn [check_names]. by rewrite check_name_matched. }
    cbn. unfold check_name.
    assert (list_find (λ d, Str <$> match_scientificName d = Some NaN)
              response_json = None) as ->; [|done].
    apply list_find_None, List.Forall_forall. intros d _.
    by destruct (match_scientificName d). }
  split; [exact Hloop|].
  intros dataframe Hcol Hnames Hbefore. unfold create_taxonomy_report.
  rewrite (bool_decide_true _ Hcol). cbn [negb].
  by rewrite Hnames, Hloop.
Qed.

End names_loop.

(** One name gets a suggestion: the flag is set. *)
Lemma check_names_flag_one_suggestion :
  ∃ st',
    check_names (vocab := sample_vocab)
      (service := fallback_service
         [{| suggestion_name := "Acacia dealbata";
             suggestion_rank := Some "species";
             suggestion_cl := {["genus" := "Acacia"]};
             suggestion_synonymMatch := None |}]
         {| success := false; search_keys := ∅ |})
      5 true [] [Str "Acacia dealbta"]
      (initial_taxonomy_state (vocab := sample_vocab))
    = Ok st'
    ∧ has_invalid_taxa st' = true.
Proof.
  destruct (check_names (vocab := sample_vocab)
      (service := fallback_service
         [{| suggestion_name := "Acacia dealbata";
             suggestion_rank := Some "species";
             suggestion_cl := {["genus" := "Acacia"]};
             suggestion_synonymMatch := None |}]
         {| success := false; search_keys := ∅ |})
      5 true [] [Str "Acacia dealbta"]
      (initial_taxonomy_state (vocab := sample_vocab))) as [st'| |] eqn:Hrun;
    [|vm_compute in Hrun; discriminate Hrun..].
  exists st'. split; [done|].
  rewrite (proj1 (check_names_flag _ _ _ _ _ _ Hrun)). reflexivity.
Defined.

(** A known name followed by a missing value. *)
Lemma missing_name_raises_after_known_name :
  create_taxonomy_report (runtime := whole_number_runtime)
    (vocab := sample_vocab) (service := known_names ["Acacia"])
    {| index_length := 2; frame := [("scientificName", [Str "Acacia"; NaN])] |}
    5 true
  = Raise (AttributeError "split").
Proof.
  apply (proj2 (missing_name_raises (runtime := whole_number_runtime)
                  (vocab := sample_vocab) (service := known_names ["Acacia"])
                  5 true [Str "Acacia"] []));
    [compute_done|reflexivity|].
  repeat constructor.
Defined.

(** *** The dictionary of suggestions *)

Lemma occurrences_app (k : string) (l1 l2 : list string) :
  occurrences k (l1 ++ l2) = (occurrences k l1 + occurrences k l2)%nat.
Proof. unfold occurrences. by rewrite filter_app, length_app. Qed.

Lemma occurrences_absent (k : string) (l : list string) :
  k ∉ l → occurrences k l = 0%nat.
Proof.
  unfold occurrences. induction l as [|x l IH]; [done|].
  rewrite not_elem_of_cons. intros [Hne Hl].
  rewrite filter_cons_False by congruence. by apply IH.
Qed.

Lemma occurrences_NoDup (k : string) (l : list string) :
  NoDup l → k ∈ l → occurrences k l = 1%nat.
Proof.
  induction 1 as [|x l Hx Hl IH]; [by intros ?%elem_of_nil|].
  intros Hk. change (x :: l) with ([x] ++ l). rewrite occurrences_app.
  destruct (decide (x = k)) as [->|Hne].
  - rewrite (occurrences_absent k l) by done. unfold occurrences.
    by rewrite filter_cons_True.
  - apply elem_of_cons in Hk as [?|Hk]; [congruence|].
    rewrite IH by done. unfold occurrences. by rewrite filter_cons_False.
Qed.

Section dictionary.
Context {runtime : Runtime} {vocab : Vocab} {service : NameMatching}.

Lemma dict_append_entries k v st st' k' :
  dict_append k v st = Ok st' →
  entries_at st' k' = (entries_at st k' + occurrences k' [k])%nat
  ∧ term st' = term st.
Proof.
  unfold dict_append, entries_at, occurrences.
  destruct (invalid_taxon_dict st !! k) as [l|] eqn:Hl; [|done].
  intros [= <-]. cbn [invalid_taxon_dict term]. split; [|done].
  destruct (decide (k = k')) as [<-|Hne].
  - rewrite lookup_insert_eq, Hl, filter_cons_True by done. cbn.
    rewrite length_app. cbn. lia.
  - rewrite lookup_insert_ne, filter_cons_False by done. cbn. lia.
Qed.

Lemma append_match_entries item proposed rank st st' k :
  append_match item proposed rank st = Ok st' →
  entries_at st' k
  = (entries_at st k
     + occurrences k ["original name"; "proposed match(es)";
                      "rank of proposed match(es)"])%nat
  ∧ term st' = term st.
Proof.
  unfold append_match. step_outcome E1. step_outcome E2. intros E3.
  apply (dict_append_entries _ _ _ _ k) in E1 as [E1 T1], E2 as [E2 T2],
    E3 as [E3 T3].
  split; [|congruence]. rewrite E3, E2, E1.
  change ["original name"; "proposed match(es)"; "rank of proposed match(es)"]
    with (["original name"] ++ ["proposed match(es)"]
          ++ ["rank of proposed match(es)"]).
  rewrite !occurrences_app. lia.
Qed.

Lemma append_classification_entries cl ts st st' k :
  append_classification cl ts st = Ok st' →
  entries_at st' k = (entries_at st k + occurrences k ts)%nat.
Proof.
  revert st. induction ts as [|t ts IH]; intros st.
  { intros [= <-]. unfold occurrences. cbn. lia. }
  cbn [append_classification]. step_outcome E1. intros E2%IH.
  apply (dict_append_entries _ _ _ _ k) in E1 as [E1 _].
  change (t :: ts) with ([t] ++ ts). rewrite occurrences_app, E2, E1.
  unfold entries_at, bind_term. cbn. lia.
Qed.

(** X16. A suggestion with a rank, from the autocomplete or from the
    search, keeps the lists of the dictionary parallel when the keys are all
    different: if the first suggestion, when there is one, has a rank and the
    name gets through, every list has grown by exactly one value. *)
Theorem suggestion_keeps_lists_parallel (num_matches : Z)
    (include_synonyms : bool) (response_json : list classification_match)
    (item : string) (st st' : taxonomy_state) :
  NoDup terms →
  ¬ matched response_json (Str item) →
  (∀ first more,
     autocomplete (join_split_blank item) num_matches include_synonyms
     = first :: more →
     is_Some (suggestion_rank first)) →
  check_name num_matches include_synonyms response_json (Str item) st = Ok st' →
  (∀ k, k ∈ terms → entries_at st' k = S (entries_at st k))
  ∧ (aligned st → aligned st').
Proof.
  intros Hnodup Hm Hranked Hstep.
  assert (∀ k, k ∈ terms → entries_at st' k = S (entries_at st k)) as Hgrow.
  { intros k Hk. pose proof (occurrences_NoDup k terms Hnodup Hk) as Hone.
    unfold terms in Hone. rewrite occurrences_app in Hone.
    revert Hstep. unfold check_name.
    destruct (list_find _ response_json) as [[i d]|] eqn:Hfind.
    { apply list_find_Some in Hfind as (Hi & Hd & _). destruct Hm.
      apply Exists_exists. exists d. split; [|done].
      by eapply list_elem_of_lookup_2. }
    destruct (autocomplete _ _ _) as [|first more] eqn:Hauto.
    - destruct (success _); [|done].
      step_outcome E1. step_outcome E2. step_outcome E3.
      intros E4%(append_classification_entries _ _ _ _ k).
      apply (append_match_entries _ _ _ _ _ k) in E3 as [E3 _].
      change (entries_at (set_invalid st) k) with (entries_at st k) in E3. lia.
    - destruct (Hranked first more eq_refl) as [rank ->].
      step_outcome E1.
      intros E2%(append_classification_entries _ _ _ _ k).
      apply (append_match_entries _ _ _ _ _ k) in E1 as [E1 _].
      change (entries_at (set_invalid st) k) with (entries_at st k) in E1. lia. }
  split; [exact Hgrow|].
  intros Hal k1 k2 Hk1 Hk2. rewrite !Hgrow by done. f_equal. by apply Hal.
Qed.

End dictionary.

(** With the sample terms, a ranked suggestion adds one value to every
    list. *)
Lemma suggestion_keeps_lists_parallel_sample :
  ∃ st',
    check_name (vocab := sample_vocab)
      (service := fallback_service
         [{| suggestion_name := "Acacia dealbata";
             suggestion_rank := Some "species";
             suggestion_cl := {["genus" := "Acacia"]};
             suggestion_synonymMatch := None |}]
         {| success := false; search_keys := ∅ |})
      5 true [] (Str "Acacia dealbta")
      (initial_taxonomy_state (vocab := sample_vocab))
    = Ok st'
    ∧ aligned (vocab := sample_vocab) st'.
Proof.
  destruct (check_name (vocab := sample_vocab)
      (service := fallback_service
         [{| suggestion_name := "Acacia dealbata";
             suggestion_rank := Some "species";
             suggestion_cl := {["genus" := "Acacia"]};
             suggestion_synonymMatch := None |}]
         {| success := false; search_keys := ∅ |})
      5 true [] (Str "Acacia dealbta")
      (initial_taxonomy_state (vocab := sample_vocab))) as [st'| |] eqn:Hrun;
    [|vm_compute in Hrun; discriminate Hrun..].
  exists st'. split; [done|].
  refine (proj2 (suggestion_keeps_lists_parallel (vocab := sample_vocab)
                   _ _ _ _ _ _ _ _ _ Hrun) _).
  - compute_done.
  - by intros ?%Exists_nil.
  - intros first more [= <- <-]. by eexists.
  - intros k1 k2 Hk1 Hk2. unfold entries_at.
    assert (∀ k, k ∈ terms (vocab := sample_vocab) →
                 invalid_taxon_dict (initial_taxonomy_state (vocab := sample_vocab)) !! k
                 = Some []) as Hempty.
    { intros k Hk. vm_compute in Hk.
      repeat (apply elem_of_cons in Hk as [->|Hk]; [vm_compute; reflexivity|]).
      by apply elem_of_nil in Hk. }
    by rewrite !Hempty.
Defined.

(** *** The synonym branch *)

Lemma occurrences_filter (P : string → Prop) `{!∀ x, Decision (P x)}
    (k : string) (l : list string) :
  occurrences k (filter P l)
  = if decide (P k) then occurrences k l else 0%nat.
Proof.
  induction l as [|x l IH]; [by destruct (decide (P k))|].
  change (x :: l) with ([x] ++ l). rewrite filter_app, !occurrences_app, IH.
  destruct (decide (P k)) as [Hk|Hk].
  - f_equal. destruct (decide (P x)) as [Hx|Hx].
    + by rewrite filter_cons_True.
    + rewrite filter_cons_False by done. symmetry. apply occurrences_absent.
      rewrite list_elem_of_singleton. by intros ->.
  - rewrite Nat.add_0_r. apply occurrences_absent.
    intros Hin. apply list_elem_of_filter in Hin as [HP _]. by apply Hk.
Qed.

Section synonyms.
Context {runtime : Runtime} {vocab : Vocab} {service : NameMatching}.

(** The [else] of the [for] appends under the term the loop ended with: the
    last one of the list, or what [term] held before when the list is
    empty. *)
Lemma append_synonym_classification_entries cl ts st st' k :
  append_synonym_classification cl ts st = Ok st' →
  ∃ t, from_option Some (term st) (last ts) = Some t
       ∧ entries_at st' k
         = (entries_at st k
            + occurrences k (filter (λ t, is_Some (cl !! t)) ts)
            + occurrences k [t])%nat.
Proof.
  revert st. induction ts as [|t0 ts IH]; intros st.
  { cbn. destruct (term st) as [t|]; [|done].
    intros [E _]%(dict_append_entries _ _ _ _ k). exists t. split; [done|].
    unfold occurrences in E. cbn in E. lia. }
  cbn [append_synonym_classification]. rewrite last_cons.
  destruct (cl !! t0) as [v|] eqn:Hcl.
  - step_outcome E1. intros (t & Hlast & E2)%IH.
    apply (dict_append_entries _ _ _ _ k) in E1 as [E1 T1].
    exists t. split.
    { rewrite T1 in Hlast. cbn in Hlast. by destruct (last ts). }
    rewrite E2, E1, filter_cons_True by (by rewrite Hcl).
    change (t0 :: filter (λ t1, is_Some (cl !! t1)) ts)
      with ([t0] ++ filter (λ t1, is_Some (cl !! t1)) ts).
    rewrite occurrences_app.
    change (entries_at (bind_term t0 st) k) with (entries_at st k). lia.
  - cbn [mbind outcome_bind]. intros (t & Hlast & E2)%IH. exists t. split.
    { cbn in Hlast. by destruct (last ts). }
    rewrite E2, filter_cons_False by (rewrite Hcl; by intros [? ?]).
    change (entries_at (bind_term t0 st) k) with (entries_at st k). lia.
Qed.

Lemma append_synonym_classification_ready cl ts st t :
  keys_ready st → ts ⊆ terms →
  from_option Some (term st) (last ts) = Some t → t ∈ terms →
  ∃ st', append_synonym_classification cl ts st = Ok st' ∧ keys_ready st'.
Proof.
  revert st. induction ts as [|t0 ts IH]; intros st Hready Hsub Hlast Ht.
  { cbn in *. rewrite Hlast.
    destruct (dict_append_ready t None st Hready Ht) as (st' & E & Hready' & _).
    by exists st'. }
  cbn [append_synonym_classification]. rewrite last_cons in Hlast.
  assert (from_option Some (Some t0) (last ts) = Some t) as Hlast'.
  { by destruct (last ts). }
  assert (t0 ∈ terms) as Ht0 by (apply Hsub; by left).
  assert (ts ⊆ terms) as Hsub' by (intros x Hx; apply Hsub; by right).
  destruct (cl !! t0) as [v|].
  - destruct (dict_append_ready t0 (Some v) (bind_term t0 st))
      as (st1 & E1 & Hready1 & _); [done|done|].
    rewrite E1. cbn.
    apply (dict_append_entries _ _ _ _ t0) in E1 as [_ T1].
    apply IH; [done|done|by rewrite T1|done].
  - cbn. by apply IH.
Qed.

Lemma check_synonyms_ready item synonyms st init last_term :
  taxon_terms_Australia = init ++ [last_term] →
  keys_ready st →
  ∃ st', check_synonyms item synonyms st = Ok st' ∧ keys_ready st'.
Proof.
  intros Htta. revert st.
  induction synonyms as [|synonym synonyms IH]; intros st Hready.
  { by exists st. }
  cbn [check_synonyms]. destruct (synonym_rank synonym) as [rank|].
  - destruct (append_match_ready item (synonym_name synonym) (Some rank) st Hready)
      as (st0 & -> & Hready0 & _).
    cbn.
    destruct (append_synonym_classification_ready (synonym_cl synonym)
                taxon_terms_Australia st0 last_term)
      as (st1 & -> & Hready1); [done|apply taxon_terms_in_terms| |..].
    + by rewrite Htta, last_snoc.
    + apply taxon_terms_in_terms. rewrite Htta. set_solver.
    + cbn. by apply IH.
  - cbn. by apply IH.
Qed.

Lemma check_synonyms_entries item synonyms st st' k init last_term :
  taxon_terms_Australia = init ++ [last_term] →
  check_synonyms item synonyms st = Ok st' →
  entries_at st' k
  = (entries_at st k
     + length (ranked_synonyms synonyms)
       * (occurrences k ["original name"; "proposed match(es)";
                         "rank of proposed match(es)"]
          + occurrences k [last_term])
     + length (ranked_synonyms_with k synonyms)
       * occurrences k taxon_terms_Australia)%nat.
Proof.
  intros Htta. revert st.
  induction synonyms as [|synonym synonyms IH]; intros st.
  { intros [= <-]. cbn. lia. }
  cbn [check_synonyms]. unfold ranked_synonyms_with, ranked_synonyms in *.
  destruct (synonym_rank synonym) as [rank|] eqn:Hrank.
  - step_outcome E1. revert E1. step_outcome E2. intros E3 E4%IH.
    apply (append_match_entries _ _ _ _ _ k) in E2 as [E2 _].
    apply (append_synonym_classification_entries _ _ _ _ k) in E3
      as (t & Hlast & E3).
    rewrite Htta, last_snoc in Hlast. cbn in Hlast. injection Hlast as <-.
    rewrite occurrences_filter in E3.
    rewrite (filter_cons_True _ synonym) by (by rewrite Hrank).
    rewrite E4, E3, E2.
    destruct (decide (is_Some (synonym_cl synonym !! k))) as [Hcl|Hcl].
    + rewrite filter_cons_True by done. cbn [length]. lia.
    + rewrite filter_cons_False by done. cbn [length]. lia.
  - cbn [mbind outcome_bind]. intros E4%IH.
    rewrite (filter_cons_False _ synonym) by (rewrite Hrank; by intros [? ?]).
    done.
Qed.

(** X17. The synonym branch, from a dictionary that has every key. It
    gets through, and every synonym with a rank adds one value to each of
    the three leading lists; a term of the classification gets a value only
    from the ranked synonyms whose classification has the term, no [None]
    standing in for the others; and the [else], which belongs to the [for],
    adds one [None] more under the last term for every ranked synonym. So
    once a ranked synonym has the last term, the lists are of different
    lengths. *)
Theorem synonyms_leave_lists_uneven (item : string)
    (synonyms : list synonym_match) (st : taxonomy_state)
    (init : list string) (last_term : string) :
  NoDup terms →
  taxon_terms_Australia = init ++ [last_term] →
  keys_ready st →
  ∃ st',
    check_synonyms item synonyms st = Ok st'
    ∧ (∀ k, k ∈ ["original name"; "proposed match(es)";
                 "rank of proposed match(es)"] →
            entries_at st' k
            = (entries_at st k + length (ranked_synonyms synonyms))%nat)
    ∧ (∀ k, k ∈ init →
            entries_at st' k
            = (entries_at st k + length (ranked_synonyms_with k synonyms))%nat)
    ∧ entries_at st' last_term
      = (entries_at st last_term
         + length (ranked_synonyms_with last_term synonyms)
         + length (ranked_synonyms synonyms))%nat
    ∧ (aligned st → ranked_synonyms_with last_term synonyms ≠ [] →
       ¬ aligned st').
Proof.
  intros Hnodup Htta Hready.
  destruct (check_synonyms_ready item synonyms st init last_term Htta Hready)
    as (st' & Hrun & _).
  exists st'. split; [exact Hrun|].
  pose proof (λ k, check_synonyms_entries item synonyms st st' k init last_term
                     Htta Hrun) as Hcount.
  unfold terms in Hnodup. apply NoDup_app in Hnodup as (Hlead & Hapart & Htail).
  assert (last_term ∈ taxon_terms_Australia) as Hlast.
  { rewrite Htta. set_solver. }
  assert (entries_at st' last_term
          = (entries_at st last_term
             + length (ranked_synonyms_with last_term synonyms)
             + length (ranked_synonyms synonyms))%nat) as Hlast_count.
  { rewrite Hcount, (occurrences_NoDup _ _ Htail Hlast).
    rewrite (occurrences_absent last_term [_; _; _])
      by (intros Hin; by apply (Hapart _ Hin)).
    unfold occurrences at 1. rewrite filter_cons_True by done. cbn. lia. }
  assert (∀ k, k ∈ ["original name"; "proposed match(es)";
                    "rank of proposed match(es)"] →
               entries_at st' k
               = (entries_at st k + length (ranked_synonyms synonyms))%nat)
    as Hlead_count.
  { intros k Hk. rewrite Hcount, (occurrences_NoDup _ _ Hlead Hk).
    rewrite (occurrences_absent k taxon_terms_Australia) by (by apply Hapart).
    rewrite (occurrences_absent k [last_term]).
    - lia.
    - rewrite list_elem_of_singleton. intros ->. by apply (Hapart _ Hk). }
  split; [exact Hlead_count|]. split; [|split; [exact Hlast_count|]].
  - intros k Hk. rewrite Hcount.
    assert (k ∈ taxon_terms_Australia) as Hin by (rewrite Htta; set_solver).
    rewrite (occurrences_NoDup _ _ Htail Hin).
    rewrite (occurrences_absent k [_; _; _])
      by (intros Hin'; by apply (Hapart _ Hin')).
    rewrite (occurrences_absent k [last_term]).
    + lia.
    + rewrite list_elem_of_singleton. intros ->.
      rewrite Htta in Htail. apply NoDup_app in Htail as (_ & Hne & _).
      apply (Hne _ Hk). set_solver.
  - intros Hal Hwith Hal'.
    assert ("original name" ∈ terms) as Hname by (unfold terms; by constructor).
    assert (last_term ∈ terms) as Hterm by (by apply taxon_terms_in_terms).
    pose proof (Hal _ _ Hname Hterm) as Hbefore.
    pose proof (Hal' _ _ Hname Hterm) as Hafter.
    rewrite Hlast_count, Hlead_count in Hafter by (by constructor).
    destruct (ranked_synonyms_with last_term synonyms); [done|].
    cbn in Hafter. lia.
Qed.

End synonyms.

(** One synonym with a rank and a genus: the genus list gets two values,
    the others one or none. *)
Lemma synonyms_leave_lists_uneven_one_synonym :
  ∃ st',
    check_synonyms (vocab := sample_vocab) "Acacia dealbta"
      [{| synonym_name := "Acacia dealbata";
          synonym_rank := Some "species";
          synonym_cl := {["genus" := "Acacia"]} |}]
      (initial_taxonomy_state (vocab := sample_vocab))
    = Ok st'
    ∧ entries_at st' "original name" = 1%nat
    ∧ entries_at st' "genus" = 2%nat.
Proof.
  destruct (synonyms_leave_lists_uneven (vocab := sample_vocab)
              "Acacia dealbta"
              [{| synonym_name := "Acacia dealbata";
                  synonym_rank := Some "species";
                  synonym_cl := {["genus" := "Acacia"]} |}]
              (initial_taxonomy_state (vocab := sample_vocab))
              ["kingdom"; "phylum"; "class"; "order"; "family"] "genus")
    as (st' & Hrun & Hlead & _ & Hlast & _).
  - compute_done.
  - reflexivity.
  - apply (initial_taxonomy_state_ready (vocab := sample_vocab)).
  - exists st'. split; [exact Hrun|]. split.
    + rewrite Hlead by set_solver. reflexivity.
    + rewrite Hlast. reflexivity.
Defined.

(** *** The count of valid taxa *)

Section valid_taxa.
Context {runtime : Runtime} {vocab : Vocab} {service : NameMatching}.

Lemma lowest_count_bounds (rows : Z) (entries : list (string * Z)) (start : Z) :
  (∀ e, e ∈ entries → e.1 ≠ "vernacularName" → e.2 < rows →
        lowest_count rows entries start ≤ e.2)
  ∧ (lowest_count rows entries start = start
     ∨ ∃ e, e ∈ entries ∧ e.1 ≠ "vernacularName" ∧ e.2 < rows
            ∧ lowest_count rows entries start = e.2).
Proof.
  revert start. induction entries as [|e entries IH]; intros start.
  { split; [by intros e ?%elem_of_nil|by left]. }
  cbn [lowest_count].
  destruct (IH (if negb (bool_decide (e.1 = "vernacularName"))
                   && (e.2 <? rows) && (e.2 <? start)
                then e.2 else start)) as [Hle Hat].
  split.
  - intros e' [->|He']%elem_of_cons Hname Hrows; [|by apply Hle].
    etrans; [apply lowest_count_le|].
    rewrite (bool_decide_false _ Hname), (proj2 (Z.ltb_lt _ _) Hrows).
    cbn [negb andb]. destruct (e.2 <? start) eqn:Hlt; [done|].
    by apply Z.ltb_ge in Hlt.
  - destruct (negb (bool_decide (e.1 = "vernacularName"))
              && (e.2 <? rows) && (e.2 <? start)) eqn:Hc.
    + apply andb_true_iff in Hc as [[Hn Hr]%andb_true_iff _].
      apply negb_true_iff, bool_decide_eq_false in Hn. apply Z.ltb_lt in Hr.
      right. destruct Hat as [->|(e' & He' & Hrest)].
      * exists e. split; [by left|done].
      * exists e'. split; [by right|done].
    + destruct Hat as [->|(e' & He' & Hrest)]; [by left|].
      right. exists e'. split; [by right|done].
Qed.

(** X18. The count of lines 558 to 570. With an invalid taxon it is 0.
    Otherwise, when the frame has none of the required taxonomy columns the
    code calls [items] on the int 0 and raises [AttributeError]; when it has
    some, the count is the least of 999, the number of rows and the
    populated counts of the required columns the frame has, [vernacularName]
    left aside: it is below each of them and is one of them. *)
Theorem count_valid_taxa_minimum (dataframe : DataFrame) :
  count_valid_taxa dataframe true = Ok 0
  ∧ (present_fields dataframe required_taxonomy_columns = [] →
     count_valid_taxa dataframe false = Raise (AttributeError "items"))
  ∧ (present_fields dataframe required_taxonomy_columns ≠ [] →
     ∃ n,
       count_valid_taxa dataframe false = Ok n
       ∧ n ≤ 999 ∧ n ≤ pd.len dataframe
       ∧ (∀ f, f ∈ present_fields dataframe required_taxonomy_columns →
               f ≠ "vernacularName" →
               n ≤ non_null_count (pd.column dataframe f))
       ∧ (n = 999 ∨ n = pd.len dataframe
          ∨ ∃ f, f ∈ present_fields dataframe required_taxonomy_columns
                 ∧ f ≠ "vernacularName"
                 ∧ n = non_null_count (pd.column dataframe f))).
Proof.
  split; [done|]. unfold count_valid_taxa. cbn [negb].
  rewrite validate_required_fields_value.
  split; [by intros ->|]. intros Hsome.
  destruct (present_fields dataframe required_taxonomy_columns)
    as [|f0 present]; [done|]. clear Hsome.
  cbn [pd.items mbind outcome_bind]. generalize (f0 :: present). intros fields.
  set (entries := (λ f, (f, non_null_count (pd.column dataframe f))) <$> fields).
  pose proof (lowest_count_le (pd.len dataframe) entries 999) as Hstart.
  destruct (lowest_count_bounds (pd.len dataframe) entries 999) as [Hle Hat].
  eexists. split; [done|].
  destruct (pd.len dataframe <? lowest_count (pd.len dataframe) entries 999)
    eqn:Hlt; [apply Z.ltb_lt in Hlt|apply Z.ltb_ge in Hlt].
  - split; [lia|]. split; [done|]. split; [|by right; left].
    intros f Hf Hname.
    destruct (decide (non_null_count (pd.column dataframe f) < pd.len dataframe))
      as [Hrows|Hrows]; [|lia].
    pose proof (Hle (f, non_null_count (pd.column dataframe f))) as Hf'.
    cbn in Hf'. etrans; [|apply Hf'; [|done..]]; [lia|].
    unfold entries. apply list_elem_of_fmap. by exists f.
  - split; [done|]. split; [done|]. split.
    + intros f Hf Hname.
      destruct (decide (non_null_count (pd.column dataframe f) < pd.len dataframe))
        as [Hrows|Hrows]; [|lia].
      apply (Hle (f, non_null_count (pd.column dataframe f))); [|done..].
      unfold entries. apply list_elem_of_fmap. by exists f.
    + destruct Hat as [->|(e & He & Hname & _ & ->)]; [by left|].
      right; right. unfold entries in He.
      apply list_elem_of_fmap in He as (f & -> & Hf). by exists f.
Qed.

End valid_taxa.

(** Two rows, one of them without a scientific name: the count is at most
    1. *)
Lemma count_valid_taxa_minimum_one_name_missing :
  ∃ n,
    count_valid_taxa (vocab := sample_vocab)
      {| index_length := 2;
         frame := [("scientificName", [Str "Acacia"; NaN]);
                   ("vernacularName", [NaN; NaN]);
                   ("genus", [Str "Acacia"; Str "Acacia"])] |}
      false
    = Ok n
    ∧ n ≤ 1.
Proof.
  destruct (proj2 (proj2 (count_valid_taxa_minimum (vocab := sample_vocab)
              {| index_length := 2;
                 frame := [("scientificName", [Str "Acacia"; NaN]);
                           ("vernacularName", [NaN; NaN]);
                           ("genus", [Str "Acacia"; Str "Acacia"])] |})))
    as (n & Hrun & _ & _ & Hle & _); [by vm_compute|].
  exists n. split; [exact Hrun|].
  apply (Hle "scientificName"); [|done]. vm_compute. by constructor.
Defined.

(** *** How [validate_event_dataframe] ends *)

Section event_outcome.
Context {runtime : Runtime} {vocab : Vocab} {service : NameMatching}.

(** With ["eventID"] as the only candidate and the empty [id_term], the
    canonical [id] column is never read: the check returns. *)
Lemma check_id_fields_event (df : DataFrame) (errors : list string) :
  ∃ r, check_id_fields (Some ["eventID"]) "" df errors = Ok r.
Proof.
  cbn [check_id_fields length check_id_candidates].
  rewrite (bool_decide_false ("" = "eventID")) by done.
  rewrite (bool_decide_true (1%nat = 1%nat)) by done.
  unfold pd.has_column.
  destruct (decide ("eventID" ∈ pd.columns df)) as [Hcol|Hcol].
  - rewrite (bool_decide_true _ Hcol), getitem_present by done.
    cbn [fmap outcome_fmap mbind outcome_bind].
    destruct (pd.all _); [|by eexists].
    destruct (bool_decide (_ = _)); by eexists.
  - rewrite (bool_decide_false _ Hcol). by eexists.
Qed.

(** The only way out of [create_vocabulary_report] without a report is the
    [.str] accessor on the populated values. *)
Lemma create_vocabulary_report_outcome (df : DataFrame) (f : string)
    (vocabulary : list string) :
  (pd.has_column df f
   && negb (pd.str_accessor_ok (pd.dropna (pd.column df f))) = true →
   create_vocabulary_report df f vocabulary
   = Raise (AttributeError "Can only use .str accessor with string values!"))
  ∧ (pd.has_column df f
     && negb (pd.str_accessor_ok (pd.dropna (pd.column df f))) = false →
     ∃ report, create_vocabulary_report df f vocabulary = Ok report).
Proof.
  unfold create_vocabulary_report.
  destruct (pd.has_column df f); cbn [negb andb]; [|split; [done|by eexists]].
  assert (pd.str_lower (pd.dropna (pd.column df f))
          = if pd.str_accessor_ok (pd.dropna (pd.column df f))
            then Ok (pd.lower_cell <$> pd.dropna (pd.column df f))
            else Raise (AttributeError
                          "Can only use .str accessor with string values!"))
    as Hlower by done.
  destruct (pd.str_accessor_ok (pd.dropna (pd.column df f))) eqn:Hok;
    rewrite Hlower; cbn [negb]; (split; [intros Hc|intros Hc]); try done.
  - case_bool_decide; cbn [mbind outcome_bind]; [|by eexists].
    destruct (non_matching_sample df f _) as [sample|e|] eqn:Hsample;
      cbn [try_except mbind outcome_bind]; [by eexists..|].
    unfold non_matching_sample, pd.str_lower in Hsample.
    by destruct (pd.str_accessor_ok (pd.column df f)).
  - rewrite bool_decide_true; [done|].
    destruct (pd.dropna (pd.column df f)); [done|]. cbn. lia.
Qed.

(** X19. How [validate_event_dataframe] ends, for every frame. The process
    is never ended and no lookup fails; the call raises [AttributeError]
    when the frame has a [geodeticDatum] column whose populated values hold
    no string, else [TypeError]. The [TypeError] comes from [int(...)] when
    one of the two counts does not convert: the frame has two or more of the
    temporal fields or both of [recordedBy] and [recordedByID], or it has
    exactly one of either group and the version of pandas does not convert a
    series of one element. Otherwise it comes from the construction of the
    report. *)
Theorem validate_event_dataframe_outcome (dataframe : DataFrame) :
  let converts (fields : list string) :=
    match length (present_fields dataframe fields) with
    | 0%nat => true
    | 1%nat => series_of_one_converts
    | _ => false
    end in
  validate_event_dataframe dataframe
  = if pd.has_column dataframe "geodeticDatum"
       && negb (pd.str_accessor_ok
                  (pd.dropna (pd.column dataframe "geodeticDatum")))
    then Raise (AttributeError "Can only use .str accessor with string values!")
    else if converts ["eventDate"; "year"; "month"; "day"]
            && converts ["recordedBy"; "recordedByID"]
    then Raise (TypeError "missing a required argument")
    else Raise (TypeError "cannot convert the series to int").
Proof.
  intros converts. subst converts. unfold validate_event_dataframe.
  destruct (check_id_fields_event dataframe []) as [[record_error_count errors] ->].
  cbn [mbind outcome_bind].
  destruct (generate_coordinates_report dataframe _)
    as [coordinates_report warnings].
  destruct (create_vocabulary_report_outcome dataframe "geodeticDatum"
              geodetic_datum_vocabulary) as [Hraise Hreport].
  destruct (pd.has_column dataframe "geodeticDatum" && _) eqn:Hdatum.
  { by rewrite Hraise. }
  destruct (Hreport eq_refl) as [report ->]. cbn [mbind outcome_bind].
  rewrite !validate_required_fields_value.
  destruct (present_fields dataframe ["eventDate"; "year"; "month"; "day"])
    as [|t1 [|t2 temporal]];
    destruct (present_fields dataframe ["recordedBy"; "recordedByID"])
      as [|r1 [|r2 recorded]];
    cbn [pd.int_of_counts fmap list_fmap mbind outcome_bind length andb];
    destruct series_of_one_converts;
    cbn [mbind outcome_bind andb];
    try apply DFValidationReport_event_call; done.
Qed.

End event_outcome.

(** *** The geodetic datum on the occurrence path *)

(** X20. The test of line 125 looks for the list [["geodeticDatum"]] among
    the column names. A list is never equal to a column name, so the test
    fails for every frame, also for one that has the column, whatever the
    list holds. *)
Theorem geodetic_datum_test_never_holds (dataframe : DataFrame)
    (items : list value) :
  value_in (VList items) (VStr <$> pd.columns dataframe) = false.
Proof.
  unfold value_in. induction (pd.columns dataframe) as [|c cols IH]; [done|].
  rewrite fmap_cons. cbn [existsb]. by rewrite IH.
Qed.

(** *** Constructing a report from keywords *)

Lemma lookup_keyword_is_Some (k : string) (kwargs : list (string * value)) :
  is_Some (lookup_keyword k kwargs) ↔ k ∈ kwargs.*1.
Proof.
  induction kwargs as [|[k' v] kwargs IH].
  { split; [by intros [? ?]|by intros ?%elem_of_nil]. }
  cbn [lookup_keyword]. rewrite fmap_cons, elem_of_cons. cbn [fst].
  case_bool_decide as Hk.
  - split; [by left|by eexists].
  - rewrite IH. split; [by right|]. by intros [?|?].
Qed.

Lemma check_keywords_returns (rest : list parameter)
    (kwargs : list (string * value)) :
  returns (check_keywords [] rest kwargs) = true
  ↔ Forall (λ k, k ∈ name <$> rest) kwargs.*1.
Proof.
  induction kwargs as [|[k v] kwargs IH]; [done|].
  cbn [check_keywords]. rewrite fmap_cons, Forall_cons. cbn [fst].
  rewrite (bool_decide_false (k ∈ [])) by apply not_elem_of_nil.
  case_bool_decide as Hk.
  - rewrite IH. tauto.
  - split; [done|]. by intros [? _].
Qed.

Lemma bind_keywords_returns (rest : list parameter)
    (kwargs : list (string * value)) :
  returns (bind_keywords rest kwargs) = true
  ↔ Forall (λ p, default_value p = None → name p ∈ kwargs.*1) rest.
Proof.
  induction rest as [|p rest IH]; [done|].
  cbn [bind_keywords]. rewrite Forall_cons, <- IH, <- lookup_keyword_is_Some.
  destruct (lookup_keyword (name p) kwargs) as [v|], (default_value p) as [d|];
    destruct (bind_keywords rest kwargs); cbn; split; try done;
    try (by intros [? ?]); try (by split; [eexists|]).
  intros [Habs _]. by destruct (Habs eq_refl).
Qed.

Lemma bind_keywords_names (rest : list parameter)
    (kwargs bound : list (string * value)) :
  bind_keywords rest kwargs = Ok bound → bound.*1 = name <$> rest.
Proof.
  revert bound. induction rest as [|p rest IH]; intros bound.
  { by intros [= <-]. }
  cbn [bind_keywords].
  destruct (lookup_keyword (name p) kwargs) as [v|], (default_value p) as [d|];
    try done;
    (destruct (bind_keywords rest kwargs) as [more| |]; [|done..];
     cbn; intros [= <-]; rewrite fmap_cons; cbn; f_equal; by apply IH).
Qed.

Lemma lookup_keyword_absent (k : string) (kwargs : list (string * value)) :
  k ∉ kwargs.*1 → lookup_keyword k kwargs = None.
Proof.
  intros Hk. destruct (lookup_keyword k kwargs) eqn:Hl; [|done].
  destruct Hk. apply lookup_keyword_is_Some. by eexists.
Qed.

(** Every parameter is bound to the keyword of its name, or to its default
    when there is no such keyword. *)
Lemma bind_keywords_lookup (rest : list parameter)
    (kwargs bound : list (string * value)) (p : parameter) :
  NoDup (name <$> rest) → bind_keywords rest kwargs = Ok bound → p ∈ rest →
  lookup_keyword (name p) bound
  = from_option Some (default_value p) (lookup_keyword (name p) kwargs).
Proof.
  revert bound. induction rest as [|q rest IH]; intros bound Hnodup Hrun Hp.
  { by apply elem_of_nil in Hp. }
  rewrite fmap_cons in Hnodup. apply NoDup_cons in Hnodup as [Hq Hnodup].
  cbn [bind_keywords] in Hrun.
  assert (∃ v more,
            from_option Some (default_value q) (lookup_keyword (name q) kwargs)
            = Some v
            ∧ bind_keywords rest kwargs = Ok more
            ∧ bound = (name q, v) :: more) as (v & more & Hv & Hmore & ->).
  { destruct (lookup_keyword (name q) kwargs) as [v|],
      (default_value q) as [d|]; try done;
      (destruct (bind_keywords rest kwargs) as [more| |]; [|done..];
       cbn in Hrun; injection Hrun as <-; by eexists _, _). }
  cbn [lookup_keyword]. apply elem_of_cons in Hp as [->|Hp].
  - by rewrite bool_decide_true.
  - rewrite bool_decide_false; [by apply IH|].
    intros Heq. apply Hq. rewrite Heq. apply list_elem_of_fmap. by exists p.
Qed.

(** A call by keywords alone returns exactly when every keyword names a
    parameter and every parameter without a default is named; the object
    then holds every parameter under its name. *)
Lemma instantiate_keywords (class : string) (init : list parameter)
    (kwargs : list (string * value)) :
  NoDup (name <$> init) →
  (returns (instantiate class init [] kwargs) = true
   ↔ Forall (λ k, k ∈ name <$> init) kwargs.*1
     ∧ Forall (λ p, default_value p = None → name p ∈ kwargs.*1) init)
  ∧ (∀ obj p,
       instantiate class init [] kwargs = Ok obj → p ∈ init →
       ∃ v, from_option Some (default_value p) (lookup_keyword (name p) kwargs)
            = Some v
            ∧ getattr obj (name p) = Ok v).
Proof.
  intros Hnodup. unfold instantiate, bind_arguments.
  assert (bind_positional init [] = Ok ([], init)) as -> by (by destruct init).
  cbn [mbind outcome_bind fmap list_fmap].
  pose proof (check_keywords_returns init kwargs) as Hcheck.
  pose proof (bind_keywords_returns init kwargs) as Hbind.
  destruct (check_keywords [] init kwargs) as [[]| |];
    cbn [mbind outcome_bind returns] in *.
  - destruct (bind_keywords init kwargs) as [bound| |] eqn:Hbound;
      cbn [mbind outcome_bind returns app] in *.
    + split; [tauto|]. intros obj p [= <-] Hp. cbn [getattr].
      rewrite (bind_keywords_lookup init kwargs bound p Hnodup Hbound Hp).
      destruct (from_option _ _ _) as [v|] eqn:Hv; [by exists v|].
      exfalso. destruct (lookup_keyword (name p) kwargs) eqn:Hl; [done|].
      cbn in Hv. pose proof (proj1 Hbind eq_refl) as Hall.
      rewrite Forall_forall in Hall.
      apply (Hall p Hp), lookup_keyword_is_Some in Hv.
      rewrite Hl in Hv. by destruct Hv.
    + split; [|done]. split; [done|]. intros [_ Hall]. by apply Hbind.
    + split; [|done]. split; [done|]. intros [_ Hall]. by apply Hbind.
  - split; [|done]. split; [done|]. intros [Hall _]. by apply Hcheck.
  - split; [|done]. split; [done|]. intros [Hall _]. by apply Hcheck.
Qed.

Lemma TaxonReport_init_names :
  name <$> TaxonReport_init model
  = ["has_invalid_taxa"; "unrecognised_taxa"; "suggested_names"].
Proof. vm_compute. reflexivity. Qed.

Lemma DFValidationReport_init_names :
  name <$> DFValidationReport_init model
  = ["record_type"; "record_count"; "errors"; "warnings"; "column_counts";
     "record_error_count"; "coordinates_report";
     "records_with_taxonomy_count"; "taxonomy_report";
     "records_with_temporal_count"; "records_with_recorded_by_count";
     "vocab_reports"; "all_required_columns_present"; "missing_columns"].
Proof. vm_compute. reflexivity. Qed.

(** X21. The two report classes that validate.py constructs, called by
    keywords as validate.py calls them. [TaxonReport] returns an object
    exactly when every keyword is one of its three parameters;
    [DFValidationReport] exactly when every keyword is one of its fourteen
    parameters and the eleven without a default are all named. The object
    reads back every keyword under its name, and [False] or [None] for the
    plain defaults that are not named. *)
Theorem reports_from_keywords (kwargs : list (string * value)) :
  (returns (TaxonReport [] kwargs) = true
   ↔ Forall (λ k, k ∈ ["has_invalid_taxa"; "unrecognised_taxa";
                       "suggested_names"]) kwargs.*1)
  ∧ (returns (DFValidationReport [] kwargs) = true
     ↔ Forall (λ k, k ∈ ["record_type"; "record_count"; "errors"; "warnings";
                         "column_counts"; "record_error_count";
                         "coordinates_report"; "records_with_taxonomy_count";
                         "taxonomy_report"; "records_with_temporal_count";
                         "records_with_recorded_by_count"; "vocab_reports";
                         "all_required_columns_present"; "missing_columns"])
         kwargs.*1
       ∧ Forall (λ k, k ∈ kwargs.*1)
           ["record_type"; "record_count"; "errors"; "warnings";
            "column_counts"; "record_error_count"; "coordinates_report";
            "records_with_taxonomy_count"; "taxonomy_report";
            "records_with_temporal_count"; "records_with_recorded_by_count"])
  ∧ (∀ obj k v,
       TaxonReport [] kwargs = Ok obj ∨ DFValidationReport [] kwargs = Ok obj →
       lookup_keyword k kwargs = Some v →
       getattr obj k = Ok v)
  ∧ (∀ obj,
       TaxonReport [] kwargs = Ok obj →
       "has_invalid_taxa" ∉ kwargs.*1 →
       getattr obj "has_invalid_taxa" = Ok (VBool false))
  ∧ (∀ obj,
       DFValidationReport [] kwargs = Ok obj →
       ("vocab_reports" ∉ kwargs.*1 → getattr obj "vocab_reports" = Ok VNone)
       ∧ ("all_required_columns_present" ∉ kwargs.*1 →
          getattr obj "all_required_columns_present" = Ok (VBool false))).
Proof.
  assert (NoDup (name <$> TaxonReport_init model)) as Htaxon.
  { rewrite TaxonReport_init_names. compute_done. }
  assert (NoDup (name <$> DFValidationReport_init model)) as Hframe.
  { rewrite DFValidationReport_init_names. compute_done. }
  destruct (instantiate_keywords "TaxonReport" (TaxonReport_init model)
              kwargs Htaxon) as [Htaxon_returns Htaxon_reads].
  destruct (instantiate_keywords "DFValidationReport"
              (DFValidationReport_init model) kwargs Hframe)
    as [Hframe_returns Hframe_reads].
  rewrite TaxonReport_init_names in Htaxon_returns.
  rewrite DFValidationReport_init_names in Hframe_returns.
  fold (TaxonReport [] kwargs) in Htaxon_returns, Htaxon_reads.
  fold (DFValidationReport [] kwargs) in Hframe_returns, Hframe_reads.
  assert (∀ init class obj k v,
            (returns (instantiate class init [] kwargs) = true →
             Forall (λ k, k ∈ name <$> init) kwargs.*1) →
            (∀ obj p,
               instantiate class init [] kwargs = Ok obj → p ∈ init →
               ∃ v, from_option Some (default_value p)
                      (lookup_keyword (name p) kwargs) = Some v
                    ∧ getattr obj (name p) = Ok v) →
            instantiate class init [] kwargs = Ok obj →
            lookup_keyword k kwargs = Some v →
            getattr obj k = Ok v) as Hkeyword.
  { intros init class obj k v Hreturns Hreads Hobj Hk.
    assert (k ∈ name <$> init) as Hin.
    { assert (returns (instantiate class init [] kwargs) = true) as Hret
        by (by rewrite Hobj).
      apply Hreturns in Hret. rewrite Forall_forall in Hret. apply Hret.
      apply lookup_keyword_is_Some. by eexists. }
    apply list_elem_of_fmap in Hin as (p & -> & Hp).
    destruct (Hreads obj p Hobj Hp) as (v' & Hv' & Hget).
    rewrite Hk in Hv'. cbn in Hv'. by injection Hv' as <-. }
  assert (∀ init class obj p d,
            (∀ obj p,
               instantiate class init [] kwargs = Ok obj → p ∈ init →
               ∃ v, from_option Some (default_value p)
                      (lookup_keyword (name p) kwargs) = Some v
                    ∧ getattr obj (name p) = Ok v) →
            instantiate class init [] kwargs = Ok obj →
            p ∈ init → default_value p = Some d → name p ∉ kwargs.*1 →
            getattr obj (name p) = Ok d) as Hdefault.
  { intros init class obj p d Hreads Hobj Hp Hd Hk.
    destruct (Hreads obj p Hobj Hp) as (v' & Hv' & Hget).
    rewrite lookup_keyword_absent, Hd in Hv' by done. cbn in Hv'.
    by injection Hv' as <-. }
  split; [|split; [|split; [|split]]].
  - rewrite Htaxon_returns. split; [by intros [? _]|]. intros Hall.
    split; [done|].
    set (init := TaxonReport_init model). vm_compute in init. subst init.
    repeat constructor; discriminate.
  - rewrite Hframe_returns. apply and_iff_compat_l.
    set (init := DFValidationReport_init model). vm_compute in init.
    subst init. rewrite !Forall_cons, !Forall_nil.
    cbn [default_value name]. split.
    + intros (H1 & H2 & H3 & H4 & H5 & H6 & H7 & H8 & H9 & H10 & H11 & _).
      repeat split; auto.
    + intros (H1 & H2 & H3 & H4 & H5 & H6 & H7 & H8 & H9 & H10 & H11 & _).
      repeat split; auto; discriminate.
  - intros obj k v [Hobj|Hobj] Hk.
    + apply (Hkeyword (TaxonReport_init model) "TaxonReport"); try done.
      rewrite TaxonReport_init_names. apply Htaxon_returns.
    + apply (Hkeyword (DFValidationReport_init model) "DFValidationReport");
        try done.
      rewrite DFValidationReport_init_names. apply Hframe_returns.
  - intros obj Hobj Hk.
    apply (Hdefault (TaxonReport_init model) "TaxonReport" obj
             (optional "has_invalid_taxa" (VBool false)));
      [done|done| |done|done].
    vm_compute. by constructor.
  - intros obj Hobj. split; intros Hk.
    + apply (Hdefault (DFValidationReport_init model) "DFValidationReport" obj
               (optional "vocab_reports" VNone)); [done|done| |done|done].
      vm_compute. by do 12 constructor.
    + apply (Hdefault (DFValidationReport_init model) "DFValidationReport" obj
               (optional "all_required_columns_present" (VBool false)));
        [done|done| |done|done].
      vm_compute. by do 13 constructor.
Qed.

(** *** The last tier *)


Section last_tier.
Context {runtime : Runtime} {vocab : Vocab} {service : NameMatching}.














End last_tier.

